(** * BSM-Calculator: the pricing engine and the parameter sweep

    A shallow embedding of [bsm_model.py] (class [BlackScholes]), of the
    controller [app.py] (class [OptionAnalyticsApp]) and of the view
    [gui_view.py] (class [OptionAnalyticsUI]: the entries, the results
    grid and the chart), followed by the properties the design document
    states about them and by further properties of the code.

    Numbers.  A Python [float] is modelled as a real number.  The two
    operations of the engine that raise are modelled with their
    exceptions: the division [self.S / self.K] of two [float]s raises
    [ZeroDivisionError] on a zero divisor, and the power [self.sigma ** 2]
    raises [OverflowError] when the square is out of the range of a
    float.  Every other operation is on numpy scalars or cannot raise; it
    is modelled by the exact real operation, without rounding, and without
    the infinities and the NaN that numpy returns where a float overflows
    or underflows.  The properties of the general branch that depend on
    the size of a value therefore carry the range of the inputs as a
    hypothesis.  An array of numpy has any length: the memory it takes is
    not modelled.

    [np.log], [np.sqrt] and [np.exp] are the real functions [ln], [sqrt]
    and [exp]; [scipy.stats.norm] is the standard normal density and its
    distribution function.  [ln] and [sqrt] are total in the real library,
    with an arbitrary value outside their domain, so the statements about
    the general branch assume [S > 0] and [K > 0], as the design document
    does.

    Exceptions.  Python raises [ZeroDivisionError] when a [float] is
    divided by [0.0], [OverflowError] when a power of a [float] is out of
    range, [KeyError] when a dictionary has no such key and [ValueError]
    when a text is not a number; a function that may raise returns a
    [Py.result].

    Effects.  The dialogs and the chart of the view, and each call of the
    pricing engine, are events; a function of the interface returns its
    value together with the events it caused. *)

From Stdlib Require Import Reals Lra Lia ZArith List String.
From stdpp Require Import gmap strings.
Import ListNotations.

Local Open Scope string_scope.
Local Open Scope list_scope.
Local Open Scope R_scope.

(** * Part I: the program *)

(** ** Python values *)

Module Py.

Inductive exn : Type :=
  | ValueError (msg : string)
  | KeyError (k : option string)
  | ZeroDivisionError
  | OverflowError.

Inductive result (A : Type) : Type :=
  | Ok (a : A)
  | Raise (e : exn).
Arguments Ok {A} a.
Arguments Raise {A} e.

#[export] Instance result_ret : MRet result := fun A a => Ok a.
#[export] Instance result_bind : MBind result := fun A B f m =>
  match m with
  | Ok a => f a
  | Raise e => Raise e
  end.

(** A dictionary key is a [str] or [None]; the values are floats. *)
Abbreviation key := (option string).
Abbreviation str := (@Some string).
Abbreviation dict := (gmap (option string) R).

(** [d[k]] *)
Definition getitem (d : dict) (k : key) : result R :=
  match d !! k with
  | Some v => Ok v
  | None => Raise (KeyError k)
  end.

(** [d.get(k, dflt)] *)
Definition get (d : dict) (k : key) (dflt : R) : R :=
  match d !! k with
  | Some v => v
  | None => dflt
  end.

(** [x <= y], [x < y], [x > y] and [x == y] on floats. *)
Definition float_le (x y : R) : bool := if Rle_dec x y then true else false.
Definition float_lt (x y : R) : bool := if Rlt_dec x y then true else false.
Definition float_gt (x y : R) : bool := float_lt y x.
Definition float_eq (x y : R) : bool := if Req_dec_T x y then true else false.

(** [max(a, b)]: the first argument unless the second is greater. *)
Definition float_max (a b : R) : R := if float_lt a b then b else a.

(** [a / b] on two [float]s. *)
Definition truediv (a b : R) : result R :=
  if float_eq b 0 then Raise ZeroDivisionError else Ok (a / b).

(** The least size of a result that a binary64 float cannot hold: the
    point half-way between the largest float, [2^1024 - 2^971], and
    [2^1024], from which rounding to nearest gives infinity. *)
Definition float_overflow : R := IZR (2 ^ 1024 - 2 ^ 970)%Z.

(** [x ** n] on a [float], for a whole exponent [n]: Python raises
    [OverflowError] when the power is out of the range of a float. *)
Definition float_pow (x : R) (n : nat) : result R :=
  if float_le float_overflow (Rabs (x ^ n)) then Raise OverflowError
  else Ok (x ^ n).

(** The built-in conversions of a text to a number. *)
Record builtins : Type := {
  float : string -> result R;
  int : string -> result Z
}.

Definition newline : string := String (Ascii.ascii_of_nat 10) EmptyString.

End Py.
Import Py.

(** ** numpy and scipy *)

(** The five library functions [BlackScholes] calls. *)
Record numlib : Type := {
  np_log : R -> R;
  np_sqrt : R -> R;
  np_exp : R -> R;
  norm_cdf : R -> R;
  norm_pdf : R -> R
}.

Module Normal.

(** [norm.pdf]: the density of the standard normal distribution. *)
Definition pdf (x : R) : R := exp (- x ^ 2 / 2) / sqrt (2 * PI).

Lemma pdf_derivable : derivable pdf.
Proof. unfold pdf. reg. Qed.

Lemma pdf_continuity : continuity pdf.
Proof. apply derivable_continuous, pdf_derivable. Qed.

Definition pdf_integrable (a b : R) : Riemann_integrable pdf a b :=
  match Rle_dec a b with
  | left Hab =>
      continuity_implies_RiemannInt Hab (fun x _ => pdf_continuity x)
  | right Hab =>
      RiemannInt_P1
        (continuity_implies_RiemannInt (Rlt_le _ _ (Rnot_le_lt _ _ Hab))
           (fun x _ => pdf_continuity x))
  end.

(** The signed area under the density between [0] and [x]. *)
Definition area (x : R) : R := RiemannInt (pdf_integrable 0 x).

(** [norm.cdf]: the distribution function.  The density is even, so half
    of the mass lies left of [0], and the function is one half plus the
    signed area between [0] and [x]. *)
Definition cdf (x : R) : R := 1 / 2 + area x.

End Normal.

Definition scipy : numlib := {|
  np_log := ln;
  np_sqrt := sqrt;
  np_exp := exp;
  norm_cdf := Normal.cdf;
  norm_pdf := Normal.pdf
|}.

(** [np.linspace(start, stop, num)], for [num] not negative: the points
    [arange(num) * step + start], the last one set to [stop]. *)
Definition np_linspace (start stop : R) (num : Z) : list R :=
  let div := (num - 1)%Z in
  let delta := stop - start in
  let y := INR <$> seq 0 (Z.to_nat num) in
  let y :=
    if (0 <? div)%Z then
      let step := delta / IZR div in
      if float_eq step 0 then (fun a => a / IZR div * delta) <$> y
      else (fun a => a * step) <$> y
    else (fun a => a * delta) <$> y in
  let y := (fun a => a + start) <$> y in
  if (1 <? num)%Z then <[Z.to_nat (num - 1) := stop]> y else y.

(** ** bsm_model.py *)

Module BlackScholes.

Record t : Type := mk {
  S : R;
  K : R;
  T : R;
  r : R;
  sigma : R;
  q : R
}.

(** [float(S)] and the like leave a float as it is. *)
Definition __init__ (S K T_days r_pct sigma_pct q_pct : R) : t :=
  {| S := S;
     K := K;
     T := T_days / 365;
     r := r_pct / 100;
     sigma := sigma_pct / 100;
     q := q_pct / 100 |}.

(** The dictionary [calculate_all] starts from. *)
Definition results0 : dict :=
  list_to_map
    [ (str "call_price", 0); (str "put_price", 0);
      (str "call_delta", 0); (str "put_delta", 0);
      (str "gamma", 0); (str "vega", 0);
      (str "call_theta", 0); (str "put_theta", 0);
      (str "call_rho", 0); (str "put_rho", 0) ].

Section Model.

Context (lib : numlib).

(** The pair [(None, None)] is [None], the pair [(d1, d2)] is
    [Some (d1, d2)]. *)
Definition _d1_d2 (self : t) : result (option (R * R)) :=
  if float_le (T self) 1e-9 || float_le (sigma self) 1e-9 then mret None
  else
    m ← truediv (S self) (K self);
    sigma2 ← float_pow (sigma self) 2;
    let d1 :=
      (np_log lib m + (r self - q self + 0.5 * sigma2) * T self)
      / (sigma self * np_sqrt lib (T self)) in
    let d2 := d1 - sigma self * np_sqrt lib (T self) in
    mret (Some (d1, d2)).

Definition calculate_all (self : t) : result dict :=
  let results := results0 in
  if float_le (T self) 1e-9 then
    let results := <[str "call_price" := float_max 0 (S self - K self)]> results in
    let results := <[str "put_price" := float_max 0 (K self - S self)]> results in
    if float_gt (S self) (K self) then
      let results := <[str "call_delta" := 1]> results in
      let results := <[str "put_delta" := 0]> results in
      mret results
    else if float_lt (S self) (K self) then
      let results := <[str "call_delta" := 0]> results in
      let results := <[str "put_delta" := -1]> results in
      mret results
    else mret results
  else
    d ← _d1_d2 self;
    match d with
    | None =>
        let results := <[str "call_price" := float_max 0 (S self - K self)]> results in
        let results := <[str "put_price" := float_max 0 (K self - S self)]> results in
        mret results
    | Some (d1, d2) =>
        let sqrt_T := np_sqrt lib (T self) in
        let exp_mqT := np_exp lib (- q self * T self) in
        let exp_mrT := np_exp lib (- r self * T self) in
        let N_d1 := norm_cdf lib d1 in
        let N_d2 := norm_cdf lib d2 in
        let N_neg_d1 := norm_cdf lib (- d1) in
        let N_neg_d2 := norm_cdf lib (- d2) in
        let n_d1 := norm_pdf lib d1 in
        let results :=
          <[str "call_price" :=
              S self * exp_mqT * N_d1 - K self * exp_mrT * N_d2]> results in
        let results :=
          <[str "put_price" :=
              K self * exp_mrT * N_neg_d2 - S self * exp_mqT * N_neg_d1]> results in
        let results := <[str "call_delta" := exp_mqT * N_d1]> results in
        let results := <[str "put_delta" := exp_mqT * (N_d1 - 1)]> results in
        let results :=
          <[str "gamma" :=
              (exp_mqT * n_d1) / (S self * sigma self * sqrt_T)]> results in
        let raw_vega := S self * exp_mqT * sqrt_T * n_d1 in
        let results := <[str "vega" := raw_vega / 100]> results in
        let term1 := - (S self * exp_mqT * n_d1 * sigma self) / (2 * sqrt_T) in
        let call_theta_yr :=
          term1 - r self * K self * exp_mrT * N_d2
          + q self * S self * exp_mqT * N_d1 in
        let put_theta_yr :=
          term1 + r self * K self * exp_mrT * N_neg_d2
          - q self * S self * exp_mqT * N_neg_d1 in
        let results := <[str "call_theta" := call_theta_yr / 365]> results in
        let results := <[str "put_theta" := put_theta_yr / 365]> results in
        let raw_call_rho := K self * T self * exp_mrT * N_d2 in
        let raw_put_rho := - K self * T self * exp_mrT * N_neg_d2 in
        let results := <[str "call_rho" := raw_call_rho / 100]> results in
        let results := <[str "put_rho" := raw_put_rho / 100]> results in
        mret results
    end.

End Model.

End BlackScholes.

(** ** The effects of the user interface *)

(** The dialogs the view shows, the chart it draws, and each call of
    [calculate_all] on a model. *)
Inductive event : Type :=
  | showerror (title message : string)
  | showwarning (title message : string)
  | model_calculate_all (self : BlackScholes.t)
  | plot_data (x_values z_values : list R) (y_matrix : list (list R))
      (x_label y_label z_label : string).

(** A computation of the interface returns or raises, and leaves the
    events it caused, oldest first. *)
Definition UI (A : Type) : Type := result A * list event.

#[export] Instance UI_ret : MRet UI := fun A a => (Ok a, []).
#[export] Instance UI_bind : MBind UI := fun A B f m =>
  match m with
  | (Ok a, log) => let '(b, log') := f a in (b, log ++ log')
  | (Raise e, log) => (Raise e, log)
  end.

Definition tell (e : event) : UI unit := (Ok tt, [e]).
Definition lift {A : Type} (a : result A) : UI A := (a, []).

(** [out = []; for a in l: out.append(body(a))] *)
Fixpoint for_ {A B : Type} (l : list A) (body : A -> UI B) : UI (list B) :=
  match l with
  | [] => mret []
  | a :: l' =>
      b ← body a;
      out ← for_ l' body;
      mret (b :: out)
  end.

(** ** gui_view.py *)

Module OptionAnalyticsUI.

(** The texts of the entries and the selections of the three boxes. *)
Record t : Type := mk {
  entry_S : string;
  entry_sigma : string;
  entry_r : string;
  entry_q : string;
  entry_K : string;
  entry_T : string;
  combo_y : string;
  combo_x : string;
  entry_x_start : string;
  entry_x_end : string;
  entry_x_steps : string;
  combo_z : string;
  entry_z_start : string;
  entry_z_inc : string
}.

(** [self.entries], in the order [setup_dashboard] creates them, each with
    the text [entry.get()] returns. *)
Definition entries (self : t) : list (string * string) :=
  [ ("S", entry_S self); ("sigma", entry_sigma self); ("r", entry_r self);
    ("q", entry_q self); ("K", entry_K self); ("T", entry_T self) ].

Record params : Type := {
  y_var : string;
  x_var : string;
  x_start : R;
  x_end : R;
  x_steps : Z;
  z_var : string;
  z_start : R;
  z_inc : R
}.

Section View.

Context (py : builtins).

(** The loop of [get_dashboard_inputs]. *)
Fixpoint read_entries (items : list (string * string)) (data : dict)
  : result dict :=
  match items with
  | [] => mret data
  | (key, val) :: items' =>
      if decide (val = "") then
        Raise (ValueError ("Missing value for " +:+ key))
      else
        x ← float py val;
        read_entries items' (<[str key := x]> data)
  end.

Definition get_dashboard_inputs (self : t) : UI (option dict) :=
  match read_entries (entries self) ∅ with
  | Ok data => mret (Some data)
  | Raise (ValueError e) =>
      _ ← tell (showerror "Input Error"
                  ("Invalid input: " +:+ e +:+ newline
                   +:+ "Please enter numeric values."));
      mret None
  | Raise e => lift (Raise e)
  end.

(** The graph settings and the check of the step count. *)
Definition read_params (self : t) : result params :=
  a ← float py (entry_x_start self);
  b ← float py (entry_x_end self);
  n ← int py (entry_x_steps self);
  c ← float py (entry_z_start self);
  d ← float py (entry_z_inc self);
  let params :=
    {| y_var := combo_y self;
       x_var := combo_x self;
       x_start := a;
       x_end := b;
       x_steps := n;
       z_var := combo_z self;
       z_start := c;
       z_inc := d |} in
  if (x_steps params <=? 1)%Z then Raise (ValueError "Steps must be > 1")
  else mret params.

Definition get_analysis_inputs (self : t) : UI (option (dict * params)) :=
  base_inputs ← get_dashboard_inputs self;
  match base_inputs with
  | None => mret None
  | Some base_inputs =>
      if decide (base_inputs = ∅) then mret None
      else
        match read_params self with
        | Ok params => mret (Some (base_inputs, params))
        | Raise (ValueError e) =>
            _ ← tell (showerror "Input Error"
                        ("Invalid graph settings: " +:+ e));
            mret None
        | Raise e => lift (Raise e)
        end
  end.

End View.

End OptionAnalyticsUI.

(** ** app.py *)

Module OptionAnalyticsApp.

Import OptionAnalyticsUI.

Definition var_map : gmap string string :=
  list_to_map
    [ ("Spot Price", "S"); ("Volatility", "sigma");
      ("Time (Days)", "T"); ("Risk-Free Rate", "r") ].

Definition metric_map : gmap string string :=
  list_to_map
    [ ("Call Price", "call_price"); ("Put Price", "put_price");
      ("Call Delta", "call_delta"); ("Put Delta", "put_delta");
      ("Gamma", "gamma"); ("Vega", "vega");
      ("Theta", "call_theta"); ("Rho", "call_rho") ].

Section Controller.

Context (py : builtins).

(** The body of the inner loop of [run_analysis]: one cell of the grid. *)
Definition cell (base_inputs : dict) (x_var_name z_var_name y_metric_key : key)
    (z_val x_val : R) : UI R :=
  let current_inputs := base_inputs in
  let current_inputs := <[x_var_name := x_val]> current_inputs in
  let current_inputs := <[z_var_name := z_val]> current_inputs in
  S ← lift (getitem current_inputs (str "S"));
  K ← lift (getitem current_inputs (str "K"));
  T_days ← lift (getitem current_inputs (str "T"));
  r_pct ← lift (getitem current_inputs (str "r"));
  sigma_pct ← lift (getitem current_inputs (str "sigma"));
  q_pct ← lift (getitem current_inputs (str "q"));
  let model := BlackScholes.__init__ S K T_days r_pct sigma_pct q_pct in
  _ ← tell (model_calculate_all model);
  res ← lift (BlackScholes.calculate_all scipy model);
  let val := get res y_metric_key 0 in
  mret val.

Definition run_analysis (view : OptionAnalyticsUI.t) : UI unit :=
  data ← get_analysis_inputs py view;
  match data with
  | None => mret tt
  | Some (base_inputs, params) =>
      let x_var_name := var_map !! x_var params in
      let z_var_name := var_map !! z_var params in
      let y_metric_key := metric_map !! y_var params in
      if decide (x_var_name = z_var_name) then
        tell (showwarning "Configuration Error"
                "X-Axis and Z-Axis variables must be different.")
      else
        let x_values :=
          np_linspace (x_start params) (x_end params) (x_steps params) in
        let z_values :=
          (fun i => z_start params + INR i * z_inc params) <$> seq 0 5 in
        y_matrix ←
          for_ z_values (fun z_val =>
            for_ x_values (fun x_val =>
              cell base_inputs x_var_name z_var_name y_metric_key z_val x_val));
        tell (plot_data x_values z_values y_matrix
                (x_var params) (y_var params) (z_var params))
  end.

End Controller.

End OptionAnalyticsApp.

(** ** The design document *)

(** The value types, the closed forms and the grid of the design document,
    written from its words. *)
Module Spec.

Record ContractInputs : Type := {
  spot : R;
  strike : R;
  time_to_expiry_days : R;
  risk_free_rate_pct : R;
  volatility_pct : R;
  dividend_yield_pct : R
}.

Record PricingResult : Type := {
  call_price : R;
  put_price : R;
  call_delta : R;
  put_delta : R;
  gamma : R;
  vega : R;
  call_theta : R;
  put_theta : R;
  call_rho : R;
  put_rho : R
}.

(** Canonical units. *)
Definition years (i : ContractInputs) : R := time_to_expiry_days i / 365.
Definition rate (i : ContractInputs) : R := risk_free_rate_pct i / 100.
Definition vol (i : ContractInputs) : R := volatility_pct i / 100.
Definition yield (i : ContractInputs) : R := dividend_yield_pct i / 100.

Section ClosedForms.

Variables S K T r sigma q : R.

Definition N (x : R) : R := Normal.cdf x.
Definition n (x : R) : R := Normal.pdf x.

Definition d1 : R :=
  (ln (S / K) + (r - q + 0.5 * sigma ^ 2) * T) / (sigma * sqrt T).
Definition d2 : R := d1 - sigma * sqrt T.

Definition term1 : R := - S * exp (- (q * T)) * n d1 * sigma / (2 * sqrt T).

Definition call_theta_yr : R :=
  term1 - r * K * exp (- (r * T)) * N d2 + q * S * exp (- (q * T)) * N d1.
Definition put_theta_yr : R :=
  term1 + r * K * exp (- (r * T)) * N (- d2) - q * S * exp (- (q * T)) * N (- d1).

(** The general case. *)
Definition general : PricingResult := {|
  call_price := S * exp (- (q * T)) * N d1 - K * exp (- (r * T)) * N d2;
  put_price := K * exp (- (r * T)) * N (- d2) - S * exp (- (q * T)) * N (- d1);
  call_delta := exp (- (q * T)) * N d1;
  put_delta := exp (- (q * T)) * (N d1 - 1);
  gamma := exp (- (q * T)) * n d1 / (S * sigma * sqrt T);
  vega := S * exp (- (q * T)) * sqrt T * n d1 / 100;
  call_theta := call_theta_yr / 365;
  put_theta := put_theta_yr / 365;
  call_rho := K * T * exp (- (r * T)) * N d2 / 100;
  put_rho := - K * T * exp (- (r * T)) * N (- d2) / 100
|}.

(** The degenerate cases: intrinsic values, the two deltas as given, every
    other field at its [0.0] default. *)
Definition intrinsic (cd pd : R) : PricingResult := {|
  call_price := Rmax 0 (S - K);
  put_price := Rmax 0 (K - S);
  call_delta := cd;
  put_delta := pd;
  gamma := 0;
  vega := 0;
  call_theta := 0;
  put_theta := 0;
  call_rho := 0;
  put_rho := 0
|}.

End ClosedForms.

(** The flat key/value shape of a result. *)
Definition as_dict (p : PricingResult) : dict :=
  list_to_map
    [ (str "call_price", call_price p); (str "put_price", put_price p);
      (str "call_delta", call_delta p); (str "put_delta", put_delta p);
      (str "gamma", gamma p); (str "vega", vega p);
      (str "call_theta", call_theta p); (str "put_theta", put_theta p);
      (str "call_rho", call_rho p); (str "put_rho", put_rho p) ].

(** The variables a sweep can vary, and the labels the interface gives
    them. *)
Inductive variable : Type :=
  | spot_price
  | volatility
  | time_to_expiry
  | risk_free_rate.

Definition label (x : variable) : string :=
  match x with
  | spot_price => "Spot Price"
  | volatility => "Volatility"
  | time_to_expiry => "Time (Days)"
  | risk_free_rate => "Risk-Free Rate"
  end.

(** [base] with the field named by [x] replaced by [value]. *)
Definition override (x : variable) (value : R) (base : ContractInputs)
  : ContractInputs :=
  match x with
  | spot_price =>
      {| spot := value;
         strike := strike base;
         time_to_expiry_days := time_to_expiry_days base;
         risk_free_rate_pct := risk_free_rate_pct base;
         volatility_pct := volatility_pct base;
         dividend_yield_pct := dividend_yield_pct base |}
  | volatility =>
      {| spot := spot base;
         strike := strike base;
         time_to_expiry_days := time_to_expiry_days base;
         risk_free_rate_pct := risk_free_rate_pct base;
         volatility_pct := value;
         dividend_yield_pct := dividend_yield_pct base |}
  | time_to_expiry =>
      {| spot := spot base;
         strike := strike base;
         time_to_expiry_days := value;
         risk_free_rate_pct := risk_free_rate_pct base;
         volatility_pct := volatility_pct base;
         dividend_yield_pct := dividend_yield_pct base |}
  | risk_free_rate =>
      {| spot := spot base;
         strike := strike base;
         time_to_expiry_days := time_to_expiry_days base;
         risk_free_rate_pct := value;
         volatility_pct := volatility_pct base;
         dividend_yield_pct := dividend_yield_pct base |}
  end.

Record SweepSpec : Type := {
  independent_variable : variable;
  series_variable : variable;
  range_start : R;
  range_end : R;
  step_count : Z;
  series_start : R;
  series_increment : R;
  target_metric : string
}.

(** [step_count] evenly spaced points, the first [range_start], the last
    [range_end]. *)
Definition independent_values (spec : SweepSpec) : list R :=
  (fun j =>
     range_start spec
     + INR j * ((range_end spec - range_start spec) / (IZR (step_count spec) - 1)))
  <$> seq 0 (Z.to_nat (step_count spec)).

(** The five levels of the series variable. *)
Definition series_values (spec : SweepSpec) : list R :=
  [ series_start spec + 0 * series_increment spec;
    series_start spec + 1 * series_increment spec;
    series_start spec + 2 * series_increment spec;
    series_start spec + 3 * series_increment spec;
    series_start spec + 4 * series_increment spec ].

(** The inputs of the cell at series value [z] and independent value [x]. *)
Definition cell_inputs (base : ContractInputs) (spec : SweepSpec) (z x : R)
  : ContractInputs :=
  override (series_variable spec) z (override (independent_variable spec) x base).

End Spec.

(** ** The design document against the program *)

Import OptionAnalyticsUI OptionAnalyticsApp.

(** [evaluate]: one call of the pricing engine, as [run_dashboard_calc]
    makes it. *)
Definition model_of (i : Spec.ContractInputs) : BlackScholes.t :=
  BlackScholes.__init__ (Spec.spot i) (Spec.strike i)
    (Spec.time_to_expiry_days i) (Spec.risk_free_rate_pct i)
    (Spec.volatility_pct i) (Spec.dividend_yield_pct i).

Definition evaluate_with (lib : numlib) (i : Spec.ContractInputs) : result dict :=
  BlackScholes.calculate_all lib (model_of i).

Definition evaluate : Spec.ContractInputs -> result dict := evaluate_with scipy.

(** The view shows [base] and [spec]: each entry holds a text that reads
    as the corresponding number, each box the corresponding label. *)
Record shows (py : builtins) (view : OptionAnalyticsUI.t)
    (base : Spec.ContractInputs) (spec : Spec.SweepSpec) : Prop := {
  shows_S : entry_S view <> "" /\ float py (entry_S view) = Ok (Spec.spot base);
  shows_sigma :
    entry_sigma view <> ""
    /\ float py (entry_sigma view) = Ok (Spec.volatility_pct base);
  shows_r :
    entry_r view <> ""
    /\ float py (entry_r view) = Ok (Spec.risk_free_rate_pct base);
  shows_q :
    entry_q view <> ""
    /\ float py (entry_q view) = Ok (Spec.dividend_yield_pct base);
  shows_K : entry_K view <> "" /\ float py (entry_K view) = Ok (Spec.strike base);
  shows_T :
    entry_T view <> ""
    /\ float py (entry_T view) = Ok (Spec.time_to_expiry_days base);
  shows_y : combo_y view = Spec.target_metric spec;
  shows_x : combo_x view = Spec.label (Spec.independent_variable spec);
  shows_x_start : float py (entry_x_start view) = Ok (Spec.range_start spec);
  shows_x_end : float py (entry_x_end view) = Ok (Spec.range_end spec);
  shows_x_steps : int py (entry_x_steps view) = Ok (Spec.step_count spec);
  shows_z : combo_z view = Spec.label (Spec.series_variable spec);
  shows_z_start : float py (entry_z_start view) = Ok (Spec.series_start spec);
  shows_z_inc : float py (entry_z_inc view) = Ok (Spec.series_increment spec)
}.

(** The dictionary [get_dashboard_inputs] builds from [base]. *)
Definition inputs_dict (base : Spec.ContractInputs) : dict :=
  <[str "T" := Spec.time_to_expiry_days base]>
    (<[str "K" := Spec.strike base]>
       (<[str "q" := Spec.dividend_yield_pct base]>
          (<[str "r" := Spec.risk_free_rate_pct base]>
             (<[str "sigma" := Spec.volatility_pct base]>
                (<[str "S" := Spec.spot base]> ∅))))).

Definition params_of (spec : Spec.SweepSpec) : params := {|
  y_var := Spec.target_metric spec;
  x_var := Spec.label (Spec.independent_variable spec);
  x_start := Spec.range_start spec;
  x_end := Spec.range_end spec;
  x_steps := Spec.step_count spec;
  z_var := Spec.label (Spec.series_variable spec);
  z_start := Spec.series_start spec;
  z_inc := Spec.series_increment spec
|}.

(** The key of [base_inputs] a variable is stored under. *)
Definition field_name (x : Spec.variable) : string :=
  match x with
  | Spec.spot_price => "S"
  | Spec.volatility => "sigma"
  | Spec.time_to_expiry => "T"
  | Spec.risk_free_rate => "r"
  end.

(** The dictionary a call returns, empty when it raises. *)
Definition returned (a : result dict) : dict :=
  match a with
  | Ok res => res
  | Raise _ => ∅
  end.

(** The matrix of the sweep, cell by cell from direct calls of the engine:
    rows follow the series values, columns the independent values. *)
Definition direct_cell (base : Spec.ContractInputs) (spec : Spec.SweepSpec)
    (z x : R) : R :=
  get (returned (evaluate (Spec.cell_inputs base spec z x)))
    (metric_map !! Spec.target_metric spec) 0.

Definition direct_matrix (base : Spec.ContractInputs) (spec : Spec.SweepSpec)
  : list (list R) :=
  (fun z => direct_cell base spec z <$> Spec.independent_values spec)
  <$> Spec.series_values spec.

(** The calls of the engine a sweep makes, in order. *)
Definition sweep_calls (base : Spec.ContractInputs) (spec : Spec.SweepSpec)
  : list event :=
  concat
    ((fun z =>
        (fun x => model_calculate_all (model_of (Spec.cell_inputs base spec z x)))
        <$> Spec.independent_values spec)
     <$> Spec.series_values spec).

Definition no_engine_call (log : list event) : Prop :=
  forall self : BlackScholes.t, model_calculate_all self ∉ log.

(** ** Concrete inputs *)

(** The quick verification of [bsm_model.py]: one year, at the money. *)
Definition one_year_atm : Spec.ContractInputs := {|
  Spec.spot := 100;
  Spec.strike := 100;
  Spec.time_to_expiry_days := 365;
  Spec.risk_free_rate_pct := 5;
  Spec.volatility_pct := 20;
  Spec.dividend_yield_pct := 0
|}.

Definition at_expiry : Spec.ContractInputs := {|
  Spec.spot := 110;
  Spec.strike := 100;
  Spec.time_to_expiry_days := 0;
  Spec.risk_free_rate_pct := 5;
  Spec.volatility_pct := 20;
  Spec.dividend_yield_pct := 0
|}.

Definition past_expiry : Spec.ContractInputs := {|
  Spec.spot := 90;
  Spec.strike := 100;
  Spec.time_to_expiry_days := -3;
  Spec.risk_free_rate_pct := 5;
  Spec.volatility_pct := 20;
  Spec.dividend_yield_pct := 0
|}.

Definition zero_volatility : Spec.ContractInputs := {|
  Spec.spot := 110;
  Spec.strike := 100;
  Spec.time_to_expiry_days := 365;
  Spec.risk_free_rate_pct := 5;
  Spec.volatility_pct := 0;
  Spec.dividend_yield_pct := 0
|}.

Definition zero_strike : Spec.ContractInputs := {|
  Spec.spot := 100;
  Spec.strike := 0;
  Spec.time_to_expiry_days := 365;
  Spec.risk_free_rate_pct := 5;
  Spec.volatility_pct := 20;
  Spec.dividend_yield_pct := 0
|}.

(** A volatility whose square is out of the range of a float. *)
Definition huge_volatility : Spec.ContractInputs := {|
  Spec.spot := 100;
  Spec.strike := 100;
  Spec.time_to_expiry_days := 365;
  Spec.risk_free_rate_pct := 5;
  Spec.volatility_pct := 1.4e156;
  Spec.dividend_yield_pct := 0
|}.

(** A conversion that reads the numerals of the examples. *)
Definition demo_float (text : string) : result R :=
  match text with
  | "0" => Ok 0
  | "5" => Ok 5
  | "10" => Ok 10
  | "20" => Ok 20
  | "50" => Ok 50
  | "100" => Ok 100
  | "150" => Ok 150
  | "365" => Ok 365
  | _ => Raise (ValueError ("could not convert string to float: " +:+ text))
  end.

Definition demo_int (text : string) : result Z :=
  match text with
  | "1" => Ok 1%Z
  | "3" => Ok 3%Z
  | _ => Raise (ValueError ("invalid literal for int() with base 10: " +:+ text))
  end.

Definition demo_py : builtins := {| float := demo_float; int := demo_int |}.

(** The view of a sweep from 50 to 150 of the variable labelled [x], for
    the series variable labelled [z] from 10 by 5, over a base with the
    strike [strike]. *)
Definition demo_view (strike x z steps : string) : OptionAnalyticsUI.t := {|
  entry_S := "100";
  entry_sigma := "20";
  entry_r := "5";
  entry_q := "0";
  entry_K := strike;
  entry_T := "365";
  combo_y := "Call Price";
  combo_x := x;
  entry_x_start := "50";
  entry_x_end := "150";
  entry_x_steps := steps;
  combo_z := z;
  entry_z_start := "10";
  entry_z_inc := "5"
|}.

Definition demo_spec (x z : Spec.variable) (steps : Z) : Spec.SweepSpec := {|
  Spec.independent_variable := x;
  Spec.series_variable := z;
  Spec.range_start := 50;
  Spec.range_end := 150;
  Spec.step_count := steps;
  Spec.series_start := 10;
  Spec.series_increment := 5;
  Spec.target_metric := "Call Price"
|}.

(** ** The working range of the engine *)

(** Inputs on which the float arithmetic of the general branch neither
    overflows nor underflows to zero: the spot and the strike between
    [1e-100] and [1e100], the other raw fields at most [1e100] in size,
    and the exponent [q T] of the discount at most [100] in size. *)
Definition in_range (i : Spec.ContractInputs) : Prop :=
  1e-100 <= Spec.spot i <= 1e100
  /\ 1e-100 <= Spec.strike i <= 1e100
  /\ Rabs (Spec.time_to_expiry_days i) <= 1e100
  /\ Rabs (Spec.risk_free_rate_pct i) <= 1e100
  /\ Rabs (Spec.volatility_pct i) <= 1e100
  /\ Rabs (Spec.yield i * Spec.years i) <= 100.

(** Inputs of the working range on which the rounding of the float
    operations, about [1e-16] of each term, stays far below [1e-6]: the
    spot and the strike at most [1e6], and the exponents [q T] and [r T]
    of the two discounts at most [1] in size, so that no term of a price
    exceeds [3e6]. *)
Definition in_parity_range (i : Spec.ContractInputs) : Prop :=
  in_range i
  /\ Spec.spot i <= 1e6 /\ Spec.strike i <= 1e6
  /\ Rabs (Spec.yield i * Spec.years i) <= 1
  /\ Rabs (Spec.rate i * Spec.years i) <= 1.

(** Every direct call of the engine on a cell of the grid returns. *)
Definition grid_returns (base : Spec.ContractInputs) (spec : Spec.SweepSpec)
  : Prop :=
  forall z x : R,
    z ∈ Spec.series_values spec -> x ∈ Spec.independent_values spec ->
    exists res : dict, evaluate (Spec.cell_inputs base spec z x) = Ok res.

(** ** The keys of a result *)

(** The ten keys of a result, in the order of the dictionary literal of
    [calculate_all]. *)
Definition result_keys : list string :=
  [ "call_price"; "put_price"; "call_delta"; "put_delta"; "gamma"; "vega";
    "call_theta"; "put_theta"; "call_rho"; "put_rho" ].

(** ** Reading the entries, one by one *)

(** An entry that is not blank and that [float] accepts. *)
Definition reads_well (py : builtins) (item : string * string) : Prop :=
  item.2 <> "" /\ exists x : R, float py item.2 = Ok x.

(** The six entries of the dashboard show [base]. *)
Definition shows_base (py : builtins) (view : OptionAnalyticsUI.t)
    (base : Spec.ContractInputs) : Prop :=
  (entry_S view <> "" /\ float py (entry_S view) = Ok (Spec.spot base))
  /\ (entry_sigma view <> ""
      /\ float py (entry_sigma view) = Ok (Spec.volatility_pct base))
  /\ (entry_r view <> ""
      /\ float py (entry_r view) = Ok (Spec.risk_free_rate_pct base))
  /\ (entry_q view <> ""
      /\ float py (entry_q view) = Ok (Spec.dividend_yield_pct base))
  /\ (entry_K view <> "" /\ float py (entry_K view) = Ok (Spec.strike base))
  /\ (entry_T view <> ""
      /\ float py (entry_T view) = Ok (Spec.time_to_expiry_days base)).

(** The five conversions of [get_analysis_inputs], in the order the
    dictionary literal evaluates them, each reduced to whether it raises. *)
Definition outcome {A : Type} (a : result A) : option exn :=
  match a with
  | Ok _ => None
  | Raise e => Some e
  end.

Definition setting_outcomes (py : builtins) (view : OptionAnalyticsUI.t)
  : list (option exn) :=
  [ outcome (float py (entry_x_start view));
    outcome (float py (entry_x_end view));
    outcome (int py (entry_x_steps view));
    outcome (float py (entry_z_start view));
    outcome (float py (entry_z_inc view)) ].

(** The first exception of a list of outcomes. *)
Definition first_raise (l : list (option exn)) : option exn :=
  head (omap (fun o : option exn => o) l).

(** The events of a log that are calls of the engine, and dialogs. *)
Definition is_call (e : event) : Prop :=
  exists self : BlackScholes.t, e = model_calculate_all self.

Definition is_dialog (e : event) : Prop :=
  exists title message : string,
    e = showerror title message \/ e = showwarning title message.

(** A view with one step and an increment that is not a number. *)
Definition demo_view_bad_increment : OptionAnalyticsUI.t := {|
  entry_S := "100";
  entry_sigma := "20";
  entry_r := "5";
  entry_q := "0";
  entry_K := "100";
  entry_T := "365";
  combo_y := "Call Price";
  combo_x := "Spot Price";
  entry_x_start := "50";
  entry_x_end := "150";
  entry_x_steps := "1";
  combo_z := "Volatility";
  entry_z_start := "10";
  entry_z_inc := "five"
|}.

(** Python's [float] and [int] raise nothing but [ValueError] on a text. *)
Definition raises_only_ValueError (py : builtins) : Prop :=
  (forall text e, float py text = Raise e -> exists msg, e = ValueError msg)
  /\ (forall text e, int py text = Raise e -> exists msg, e = ValueError msg).

(** ** The results grid of the dashboard *)

Module Dashboard.

Import OptionAnalyticsUI.

(** [self.labels]: for each label of the results grid, the text it
    shows. *)
Abbreviation labels := (gmap string string).

(** A method of the view that changes label texts: it returns or raises,
    and leaves the grid as it is at that point. *)
Definition Grid (A : Type) : Type := labels -> result A * labels.

#[export] Instance Grid_ret : MRet Grid := fun A a st => (Ok a, st).
#[export] Instance Grid_bind : MBind Grid := fun A B f m st =>
  match m st with
  | (Ok a, st') => f a st'
  | (Raise e, st') => (Raise e, st')
  end.

(** The keys of the rows of [metrics]; the names and the fonts of the rows
    play no part in what follows. *)
Definition metrics : list string :=
  ["price"; "delta"; "gamma"; "vega"; "theta"; "rho"].

(** The loop of [setup_dashboard]: two labels a row, each showing a
    dash, stored from the empty [self.labels] of [__init__]. *)
Definition setup_dashboard : labels :=
  foldl (fun labels key =>
           let labels := <["call_" +:+ key := "-"]> labels in
           let labels := <["put_" +:+ key := "-"]> labels in
           labels)
    ∅ metrics.

(** [self.labels[k].config(text=fmt)] *)
Definition config (k fmt : string) : Grid unit := fun st =>
  match st !! k with
  | Some _ => (Ok tt, <[k := fmt]> st)
  | None => (Raise (KeyError (str k)), st)
  end.

(** [results.items()]: a dictionary lists its keys in the order they were
    first stored, which for a dictionary of [calculate_all] is the order
    of its literal. *)
Definition items (results : dict) : list (string * R) :=
  omap (fun key => (fun val => (key, val)) <$> results !! str key) result_keys.

Section Results.

(** [f"{val:.4f}"] *)
Context (format_4f : R -> string).

(** The body of the loop of [update_dashboard_results]; the three
    branches that choose the format give the same format. *)
Definition update_item (key : string) (val : R) : Grid unit :=
  let fmt := format_4f val in
  _ ← (fun st =>
         if decide (is_Some (st !! key)) then config key fmt st
         else (Ok tt, st));
  _ ← (if decide (key = "gamma") then
         _ ← config "call_gamma" fmt;
         config "put_gamma" fmt
       else mret tt);
  if decide (key = "vega") then
    _ ← config "call_vega" fmt;
    config "put_vega" fmt
  else mret tt.

Fixpoint update_items (l : list (string * R)) : Grid unit :=
  match l with
  | [] => mret tt
  | (key, val) :: l' =>
      _ ← update_item key val;
      update_items l'
  end.

Definition update_dashboard_results (results : dict) : Grid unit :=
  update_items (items results).

Context (py : builtins).

(** [run_dashboard_calc] of the controller: the events it causes, and the
    grid it leaves. *)
Definition run_dashboard_calc (view : OptionAnalyticsUI.t) (st : labels)
  : UI unit * labels :=
  match get_dashboard_inputs py view with
  | (Raise e, log) => ((Raise e, log), st)
  | (Ok None, log) => ((Ok tt, log), st)
  | (Ok (Some inputs), log) =>
      if decide (inputs = ∅) then ((Ok tt, log), st)
      else
        match
          S ← getitem inputs (str "S");
          K ← getitem inputs (str "K");
          T_days ← getitem inputs (str "T");
          r_pct ← getitem inputs (str "r");
          sigma_pct ← getitem inputs (str "sigma");
          q_pct ← getitem inputs (str "q");
          mret (BlackScholes.__init__ S K T_days r_pct sigma_pct q_pct)
        with
        | Raise e => ((Raise e, log), st)
        | Ok model =>
            match BlackScholes.calculate_all scipy model with
            | Raise e => ((Raise e, log ++ [model_calculate_all model]), st)
            | Ok results =>
                let '(r, st') := update_dashboard_results results st in
                ((r, log ++ [model_calculate_all model]), st')
            end
        end
  end.

End Results.

End Dashboard.

(** The grid that shows a result: each value in the format of the grid,
    the gamma and the vega in both columns. *)
Definition shown (format_4f : R -> string) (p : Spec.PricingResult)
  : Dashboard.labels :=
  list_to_map
    [ ("call_price", format_4f (Spec.call_price p));
      ("put_price", format_4f (Spec.put_price p));
      ("call_delta", format_4f (Spec.call_delta p));
      ("put_delta", format_4f (Spec.put_delta p));
      ("call_gamma", format_4f (Spec.gamma p));
      ("put_gamma", format_4f (Spec.gamma p));
      ("call_vega", format_4f (Spec.vega p));
      ("put_vega", format_4f (Spec.vega p));
      ("call_theta", format_4f (Spec.call_theta p));
      ("put_theta", format_4f (Spec.put_theta p));
      ("call_rho", format_4f (Spec.call_rho p));
      ("put_rho", format_4f (Spec.put_rho p)) ].

(** A format for the examples: the sign of the value. *)
Definition demo_format (val : R) : string :=
  if float_lt val 0 then "-" else if float_lt 0 val then "+" else "0".

(** ** The chart *)

Module Chart.

(** The calls [plot_data] makes on the axes and on the canvas. *)
Inductive command : Type :=
  | ax_clear
  | ax_plot (x y : list R) (label color : string)
  | ax_set_xlabel (text : string)
  | ax_set_ylabel (text : string)
  | ax_set_title (text : string)
  | ax_legend
  | ax_grid
  | canvas_draw.

(** How the method ends: it returns, or an index is out of range. *)
Inductive ending : Type :=
  | Returned
  | IndexError.

Definition colors : list string :=
  ["#1f77b4"; "#ff7f0e"; "#2ca02c"; "#d62728"; "#9467bd"].

Section Render.

(** [f"{z_val:.2f}"] *)
Context (format_2f : R -> string).

(** The loop over [enumerate(z_values)], from the index [i] on. *)
Fixpoint plot_curves (x_values : list R) (y_matrix : list (list R))
    (z_label : string) (i : nat) (z_values : list R)
  : list command * ending :=
  match z_values with
  | [] => ([], Returned)
  | z_val :: z_values' =>
      match colors !! (i mod length colors)%nat with
      | None => ([], IndexError)
      | Some color =>
          match y_matrix !! i with
          | None => ([], IndexError)
          | Some row =>
              let '(commands, e) :=
                plot_curves x_values y_matrix z_label (S i) z_values' in
              (ax_plot x_values row (z_label +:+ "=" +:+ format_2f z_val) color
               :: commands, e)
          end
      end
  end.

Definition plot_data (x_values z_values : list R) (y_matrix : list (list R))
    (x_label y_label z_label : string) : list command * ending :=
  match plot_curves x_values y_matrix z_label 0 z_values with
  | (commands, Returned) =>
      (ax_clear :: commands
       ++ [ ax_set_xlabel x_label; ax_set_ylabel y_label;
            ax_set_title (y_label +:+ " vs. " +:+ x_label);
            ax_legend; ax_grid; canvas_draw ],
       Returned)
  | (commands, IndexError) => (ax_clear :: commands, IndexError)
  end.

End Render.

End Chart.

(** ** The boxes of the analysis tab *)

(** The values [setup_analysis] gives to the three read-only boxes. *)
Definition combo_y_values : list string :=
  [ "Call Price"; "Put Price"; "Call Delta"; "Put Delta";
    "Gamma"; "Vega"; "Theta"; "Rho" ].

Definition combo_x_values : list string :=
  ["Spot Price"; "Volatility"; "Time (Days)"].

Definition combo_z_values : list string :=
  ["Volatility"; "Time (Days)"; "Risk-Free Rate"].

(** * Part II: properties *)

(** ** The normal distribution *)

Module NormalFacts.

Import Normal.

Lemma area_chasles (a x : R) :
  area x = RiemannInt (pdf_integrable a x) - RiemannInt (pdf_integrable a 0).
Proof.
  unfold area.
  rewrite <- (RiemannInt_P26 (pdf_integrable a 0) (pdf_integrable 0 x)
                (pdf_integrable a x)).
  lra.
Qed.

(** The area is a primitive of the density. *)
Lemma area_derivable_pt_lim (x : R) : derivable_pt_lim area x (pdf x).
Proof.
  set (a := x - 1). set (b := x + 1).
  assert (Hab : a <= b) by (unfold a, b; lra).
  set (C0 := fun (y : R) (_ : a <= y <= b) => pdf_continuity y).
  assert (Hx : a <= x <= b) by (unfold a, b; lra).
  pose proof (RiemannInt_P28 Hab C0 Hx) as HP.
  intros eps Heps. destruct (HP eps Heps) as [delta Hdelta].
  assert (Hd : 0 < Rmin delta 1).
  { apply Rmin_pos; [apply cond_pos | lra]. }
  exists (mkposreal _ Hd). intros h Hh0 Hh. simpl in Hh.
  assert (Hh1 : Rabs h < delta) by (eapply Rlt_le_trans; [exact Hh | apply Rmin_l]).
  assert (Hh2 : Rabs h < 1) by (eapply Rlt_le_trans; [exact Hh | apply Rmin_r]).
  specialize (Hdelta h Hh0 Hh1).
  assert (Hprim : forall y, a <= y <= b ->
            primitive Hab (FTC_P1 Hab C0) y = RiemannInt (pdf_integrable a y)).
  { intros y [Hy1 Hy2]. unfold primitive.
    destruct (Rle_dec a y) as [?|Hn]; [|contradiction].
    destruct (Rle_dec y b) as [?|Hn]; [|contradiction].
    apply RiemannInt_P5. }
  rewrite (area_chasles a (x + h)), (area_chasles a x).
  set (c := RiemannInt (pdf_integrable a 0)).
  assert (Hxh : a <= x + h <= b) by (apply Rabs_def2 in Hh2; unfold a, b; lra).
  rewrite <- (Hprim (x + h) Hxh), <- (Hprim x Hx).
  replace (primitive Hab (FTC_P1 Hab C0) (x + h) - c
           - (primitive Hab (FTC_P1 Hab C0) x - c))
    with (primitive Hab (FTC_P1 Hab C0) (x + h) - primitive Hab (FTC_P1 Hab C0) x)
    by lra.
  exact Hdelta.
Qed.

Lemma pdf_even (x : R) : pdf (- x) = pdf x.
Proof. unfold pdf. do 2 f_equal. lra. Qed.

Lemma pdf_pos (x : R) : 0 < pdf x.
Proof.
  unfold pdf. apply Rdiv_lt_0_compat; [apply exp_pos|].
  apply sqrt_lt_R0. pose proof PI_RGT_0. lra.
Qed.

(** The area is odd: [area x + area (- x)] has derivative zero everywhere
    and is zero at [0]. *)
Lemma area_odd (x : R) : area (- x) = - area x.
Proof.
  set (g := fun y => area y + area (- y)).
  assert (Hg : forall y, derivable_pt_lim g y 0).
  { intros y.
    replace 0 with (pdf y + - pdf y) by lra.
    apply (derivable_pt_lim_plus area (mirr_fct area));
      [apply area_derivable_pt_lim|].
    apply derivable_pt_lim_mirr_fwd.
    rewrite Ropp_involutive, <- pdf_even.
    apply area_derivable_pt_lim. }
  assert (Hd : derivable g) by (intros y; exists 0; apply Hg).
  assert (Hconst : forall y, g y = g 0).
  { intros y.
    set (m := Rabs y + 1).
    assert (Hm : - m <= y <= m).
    { unfold m. pose proof (Rle_abs y). pose proof (Rle_abs (- y)) as H'.
      rewrite Rabs_Ropp in H'. lra. }
    assert (H0 : - m <= 0 <= m) by (unfold m; pose proof (Rabs_pos y); lra).
    pose proof (null_derivative_loc g (- m) m (fun z _ => Hd z)
                  (fun z _ => derivable_continuous_pt g z (Hd z))
                  (fun z _ => derive_pt_eq_0 g z 0 (Hd z) (Hg z))) as Hc.
    unfold constant_D_eq in Hc.
    rewrite (Hc y Hm), (Hc 0 H0). reflexivity. }
  specialize (Hconst x). unfold g in Hconst.
  rewrite Ropp_0 in Hconst.
  assert (H0 : area 0 = 0) by apply RiemannInt_P9.
  lra.
Qed.

(** [N(-x) = 1 - N(x)]. *)
Lemma cdf_opp (x : R) : cdf (- x) = 1 - cdf x.
Proof. unfold cdf. rewrite area_odd. lra. Qed.

End NormalFacts.

(** ** Python comparisons *)

Lemma float_le_true (x y : R) : float_le x y = true <-> x <= y.
Proof. unfold float_le. destruct (Rle_dec x y); split; intros; auto; discriminate. Qed.

Lemma float_le_false (x y : R) : float_le x y = false <-> y < x.
Proof. unfold float_le. destruct (Rle_dec x y); split; intros; try discriminate; lra. Qed.

Lemma float_lt_true (x y : R) : float_lt x y = true <-> x < y.
Proof. unfold float_lt. destruct (Rlt_dec x y); split; intros; auto; discriminate. Qed.

Lemma float_lt_false (x y : R) : float_lt x y = false <-> y <= x.
Proof. unfold float_lt. destruct (Rlt_dec x y); split; intros; try discriminate; lra. Qed.

Lemma float_max_Rmax (x : R) : float_max 0 x = Rmax 0 x.
Proof.
  unfold float_max, Rmax, float_lt.
  destruct (Rlt_dec 0 x), (Rle_dec 0 x); lra.
Qed.

Lemma Rmax_0_cases (x : R) : Rmax 0 x = 0 \/ Rmax 0 x = x.
Proof. unfold Rmax. destruct (Rle_dec 0 x); auto. Qed.

Lemma truediv_ok (a b : R) : b <> 0 -> truediv a b = Ok (a / b).
Proof.
  unfold truediv, float_eq. intros H.
  destruct (Req_dec_T b 0); [contradiction | reflexivity].
Qed.

Lemma float_overflow_bounds : 1.797e308 < float_overflow < 1.798e308.
Proof.
  unfold float_overflow.
  let z := eval vm_compute in (2 ^ 1024 - 2 ^ 970)%Z in
  change (2 ^ 1024 - 2 ^ 970)%Z with z.
  split; lra.
Qed.

Lemma float_pow_ok (x : R) : x ^ 2 < float_overflow -> float_pow x 2 = Ok (x ^ 2).
Proof.
  intros H. unfold float_pow.
  rewrite Rabs_pos_eq by apply pow2_ge_0.
  apply float_le_false in H as ->. reflexivity.
Qed.

Lemma float_pow_overflow (x : R) :
  float_overflow <= x ^ 2 -> float_pow x 2 = Raise OverflowError.
Proof.
  intros H. unfold float_pow.
  rewrite Rabs_pos_eq by apply pow2_ge_0.
  apply float_le_true in H as ->. reflexivity.
Qed.

Lemma Ok_inj {A : Type} (a b : A) : Ok a = Ok b -> a = b.
Proof. congruence. Qed.

Lemma get_missing (res : dict) (k : key) : res !! k = None -> get res k 0 = 0.
Proof. unfold get. intros ->. reflexivity. Qed.

(** The deltas of the expiry branch. *)
Lemma step_deltas (S K : R) :
  let cd := if float_gt S K then 1 else 0 in
  let pd := if float_gt S K then 0 else if float_lt S K then -1 else 0 in
  (S > K -> cd = 1 /\ pd = 0)
  /\ (S < K -> cd = 0 /\ pd = -1)
  /\ (S = K -> cd = 0 /\ pd = 0).
Proof.
  unfold float_gt.
  destruct (float_lt K S) eqn:E1;
    [apply float_lt_true in E1 | apply float_lt_false in E1];
    (destruct (float_lt S K) eqn:E2;
     [apply float_lt_true in E2 | apply float_lt_false in E2]);
    repeat split; intros; lra.
Qed.

(** ** The three branches of the engine *)

(** Two dictionaries built by insertions are equal when they agree on
    every key; the values are compared field by field. *)
Ltac dict_eq :=
  apply map_eq; intros k; cbn [list_to_map foldr curry fst snd uncurry];
  rewrite !lookup_insert;
  repeat (case_decide; simplify_eq; [reflexivity || f_equal | ]); try reflexivity.

Ltac unfold_init :=
  cbn [model_of BlackScholes.__init__ BlackScholes.S BlackScholes.K BlackScholes.T
       BlackScholes.r BlackScholes.sigma BlackScholes.q].

Ltac unfold_lib :=
  cbn [mbind result_bind mret result_ret
       scipy np_log np_sqrt np_exp norm_cdf norm_pdf].

Ltac unfold_result :=
  cbn [Spec.general Spec.intrinsic
       Spec.call_price Spec.put_price Spec.call_delta Spec.put_delta
       Spec.gamma Spec.vega Spec.call_theta Spec.put_theta
       Spec.call_rho Spec.put_rho].

Section Branches.

Import BlackScholes.

Variable self : BlackScholes.t.

Lemma _d1_d2_general :
  K self <> 0 -> 1e-9 < T self -> 1e-9 < sigma self ->
  sigma self ^ 2 < float_overflow ->
  _d1_d2 scipy self =
    Ok (Some (Spec.d1 (S self) (K self) (T self) (r self) (sigma self) (q self),
              Spec.d2 (S self) (K self) (T self) (r self) (sigma self) (q self))).
Proof.
  intros HK HT Hsig Hpow. unfold _d1_d2.
  apply float_le_false in HT as ->. apply float_le_false in Hsig as ->.
  cbn [orb]. rewrite truediv_ok, float_pow_ok by assumption. reflexivity.
Qed.

Lemma calculate_all_general :
  K self <> 0 -> 1e-9 < T self -> 1e-9 < sigma self ->
  sigma self ^ 2 < float_overflow ->
  calculate_all scipy self =
    Ok (Spec.as_dict
          (Spec.general (S self) (K self) (T self) (r self) (sigma self) (q self))).
Proof.
  intros HK HT Hsig Hpow. unfold calculate_all.
  rewrite _d1_d2_general by assumption.
  apply float_le_false in HT as ->.
  unfold_lib. f_equal.
  unfold Spec.as_dict, results0.
  dict_eq; unfold_result;
    unfold Spec.call_theta_yr, Spec.put_theta_yr, Spec.term1, Spec.N, Spec.n;
    rewrite <- ?Ropp_mult_distr_l; try reflexivity; ring.
Qed.

Lemma calculate_all_expiry (lib : numlib) :
  T self <= 1e-9 ->
  calculate_all lib self =
    Ok (Spec.as_dict
          (Spec.intrinsic (S self) (K self)
             (if float_gt (S self) (K self) then 1 else 0)
             (if float_gt (S self) (K self) then 0
              else if float_lt (S self) (K self) then -1 else 0))).
Proof.
  intros HT. unfold calculate_all.
  apply float_le_true in HT as ->.
  unfold Spec.as_dict, results0. unfold_result. rewrite <- !float_max_Rmax.
  destruct (float_gt _ _); [|destruct (float_lt _ _)];
    unfold_lib; f_equal; dict_eq.
Qed.

Lemma calculate_all_zero_vol (lib : numlib) :
  1e-9 < T self -> sigma self <= 1e-9 ->
  calculate_all lib self = Ok (Spec.as_dict (Spec.intrinsic (S self) (K self) 0 0)).
Proof.
  intros HT Hsig. unfold calculate_all, _d1_d2.
  apply float_le_false in HT as ->. apply float_le_true in Hsig as ->.
  unfold Spec.as_dict, results0. unfold_result. rewrite <- !float_max_Rmax.
  cbn [orb]. unfold_lib. f_equal; dict_eq.
Qed.

(** With the strike at zero the general branch divides by zero. *)
Lemma calculate_all_zero_strike (lib : numlib) :
  K self = 0 -> 1e-9 < T self -> 1e-9 < sigma self ->
  calculate_all lib self = Raise ZeroDivisionError.
Proof.
  intros HK HT Hsig. unfold calculate_all, _d1_d2.
  apply float_le_false in HT as ->. apply float_le_false in Hsig as ->.
  cbn [orb]. unfold truediv, float_eq. rewrite HK.
  destruct (Req_dec_T 0 0); [reflexivity | contradiction].
Qed.

(** With a volatility whose square is out of range the general branch
    overflows, after the division. *)
Lemma calculate_all_overflow (lib : numlib) :
  K self <> 0 -> 1e-9 < T self -> 1e-9 < sigma self ->
  float_overflow <= sigma self ^ 2 ->
  calculate_all lib self = Raise OverflowError.
Proof.
  intros HK HT Hsig Hpow. unfold calculate_all, _d1_d2.
  apply float_le_false in HT as ->. apply float_le_false in Hsig as ->.
  cbn [orb]. rewrite truediv_ok, float_pow_overflow by assumption. reflexivity.
Qed.

(** Every result of the engine has the flat shape of a [PricingResult]. *)
Lemma calculate_all_shape (res : dict) :
  calculate_all scipy self = Ok res ->
  exists p : Spec.PricingResult, res = Spec.as_dict p.
Proof.
  intros Hres.
  destruct (Rle_dec (T self) 1e-9) as [HT|HT].
  - rewrite calculate_all_expiry in Hres by exact HT.
    injection Hres as <-. eauto.
  - apply Rnot_le_lt in HT.
    destruct (Rle_dec (sigma self) 1e-9) as [Hv|Hv].
    + rewrite calculate_all_zero_vol in Hres by assumption.
      injection Hres as <-. eauto.
    + apply Rnot_le_lt in Hv.
      destruct (Req_dec_T (K self) 0) as [HK|HK].
      * rewrite calculate_all_zero_strike in Hres by assumption. discriminate.
      * destruct (Rlt_dec (sigma self ^ 2) float_overflow) as [Hpow|Hpow].
        -- rewrite calculate_all_general in Hres by assumption.
           injection Hres as <-. eauto.
        -- apply Rnot_lt_le in Hpow.
           rewrite calculate_all_overflow in Hres by assumption. discriminate.
Qed.

(** The engine returns whenever the strike is not zero and the square of
    the volatility is in range. *)
Lemma calculate_all_total :
  K self <> 0 -> sigma self ^ 2 < float_overflow ->
  exists res : dict, calculate_all scipy self = Ok res.
Proof.
  intros HK Hpow.
  destruct (Rle_dec (T self) 1e-9) as [HT|HT].
  - rewrite calculate_all_expiry by exact HT. eauto.
  - apply Rnot_le_lt in HT.
    destruct (Rle_dec (sigma self) 1e-9) as [Hv|Hv].
    + rewrite calculate_all_zero_vol by assumption. eauto.
    + apply Rnot_le_lt in Hv. rewrite calculate_all_general by assumption. eauto.
Qed.

End Branches.

Lemma as_dict_lookup (p : Spec.PricingResult) :
  Spec.as_dict p !! str "call_price" = Some (Spec.call_price p)
  /\ Spec.as_dict p !! str "put_price" = Some (Spec.put_price p)
  /\ Spec.as_dict p !! str "call_delta" = Some (Spec.call_delta p)
  /\ Spec.as_dict p !! str "put_delta" = Some (Spec.put_delta p)
  /\ Spec.as_dict p !! str "gamma" = Some (Spec.gamma p)
  /\ Spec.as_dict p !! str "vega" = Some (Spec.vega p)
  /\ Spec.as_dict p !! str "call_theta" = Some (Spec.call_theta p)
  /\ Spec.as_dict p !! str "put_theta" = Some (Spec.put_theta p)
  /\ Spec.as_dict p !! str "call_rho" = Some (Spec.call_rho p)
  /\ Spec.as_dict p !! str "put_rho" = Some (Spec.put_rho p).
Proof. repeat split; reflexivity. Qed.

Lemma as_dict_lookup_None (p : Spec.PricingResult) : Spec.as_dict p !! None = None.
Proof. reflexivity. Qed.

Lemma intrinsic_values (S K cd pd : R) :
  map_Forall (fun _ v => v = 0 \/ v = cd \/ v = pd \/ v = S - K \/ v = K - S)
    (Spec.as_dict (Spec.intrinsic S K cd pd)).
Proof.
  unfold Spec.as_dict. unfold_result. cbn [list_to_map foldr uncurry fst snd].
  repeat (apply map_Forall_insert_2; [|]); try apply map_Forall_empty; auto.
  - destruct (Rmax_0_cases (S - K)) as [-> | ->]; auto.
  - destruct (Rmax_0_cases (K - S)) as [-> | ->]; auto 6.
Qed.

(** The expiry branch on two concrete inputs: in the money at expiry, and
    out of the money three days past it. *)
Example at_expiry_result :
  evaluate at_expiry =
    Ok (Spec.as_dict
          {| Spec.call_price := 10; Spec.put_price := 0;
             Spec.call_delta := 1; Spec.put_delta := 0;
             Spec.gamma := 0; Spec.vega := 0;
             Spec.call_theta := 0; Spec.put_theta := 0;
             Spec.call_rho := 0; Spec.put_rho := 0 |}).
Proof.
  unfold evaluate, evaluate_with.
  rewrite calculate_all_expiry by (simpl; lra). unfold_init.
  unfold float_gt. cbn [at_expiry Spec.spot Spec.strike].
  rewrite (proj2 (float_lt_true 100 110)) by lra.
  unfold Spec.intrinsic. do 3 f_equal; unfold Rmax; destruct (Rle_dec _ _); lra.
Qed.

Example past_expiry_result :
  evaluate past_expiry =
    Ok (Spec.as_dict
          {| Spec.call_price := 0; Spec.put_price := 10;
             Spec.call_delta := 0; Spec.put_delta := -1;
             Spec.gamma := 0; Spec.vega := 0;
             Spec.call_theta := 0; Spec.put_theta := 0;
             Spec.call_rho := 0; Spec.put_rho := 0 |}).
Proof.
  unfold evaluate, evaluate_with.
  rewrite calculate_all_expiry by (simpl; lra). unfold_init.
  unfold float_gt. cbn [past_expiry Spec.spot Spec.strike].
  rewrite (proj2 (float_lt_false 100 90)), (proj2 (float_lt_true 90 100)) by lra.
  unfold Spec.intrinsic. do 3 f_equal; unfold Rmax; destruct (Rle_dec _ _); lra.
Qed.

(** ** The pricing engine *)

(** The square of the volatility of [huge_volatility] is out of range. *)
Lemma huge_volatility_square :
  float_overflow <= Spec.vol huge_volatility ^ 2.
Proof.
  pose proof float_overflow_bounds as [_ H].
  unfold Spec.vol. cbn [huge_volatility Spec.volatility_pct].
  assert (1.798e308 <= (1.4e156 / 100) ^ 2) by lra. lra.
Qed.

Lemma huge_volatility_raises (lib : numlib) :
  evaluate_with lib huge_volatility = Raise OverflowError.
Proof.
  apply calculate_all_overflow; unfold_init;
    cbn [huge_volatility Spec.strike Spec.time_to_expiry_days
         Spec.volatility_pct]; try lra.
  apply huge_volatility_square.
Qed.

(** Claim C1 as stated fails: with a volatility of [1.4e156] per cent
    the four conditions of the claim hold and the engine does not return,
    the square of the volatility overflows. *)
Lemma huge_volatility_no_closed_forms :
  0 < Spec.spot huge_volatility /\ 0 < Spec.strike huge_volatility
  /\ 1e-9 < Spec.years huge_volatility /\ 1e-9 < Spec.vol huge_volatility
  /\ evaluate huge_volatility = Raise OverflowError
  /\ evaluate huge_volatility <>
       Ok (Spec.as_dict
             (Spec.general (Spec.spot huge_volatility) (Spec.strike huge_volatility)
                (Spec.years huge_volatility) (Spec.rate huge_volatility)
                (Spec.vol huge_volatility) (Spec.yield huge_volatility))).
Proof.
  assert (H : evaluate huge_volatility = Raise OverflowError)
    by apply huge_volatility_raises.
  unfold Spec.years, Spec.vol.
  cbn [huge_volatility Spec.spot Spec.strike Spec.time_to_expiry_days
       Spec.volatility_pct].
  split; [lra|]. split; [lra|]. split; [lra|]. split; [lra|].
  split; [exact H|]. rewrite H. discriminate.
Qed.

(** Claim C1, amended.  For [S > 0], [K > 0], [T = days / 365 > 1e-9],
    [sigma = vol_pct / 100 > 1e-9] and a square of [sigma] in the range
    of a float, the engine returns the ten fields of the
    Black-Scholes-Merton closed forms: the prices and the deltas from
    [d1] and [d2], gamma, vega per percentage point, the daily thetas and
    the rhos per percentage point. *)
Theorem general_branch_closed_forms (i : Spec.ContractInputs) :
  0 < Spec.spot i -> 0 < Spec.strike i ->
  1e-9 < Spec.years i -> 1e-9 < Spec.vol i ->
  Spec.vol i ^ 2 < float_overflow ->
  evaluate i =
    Ok (Spec.as_dict
          (Spec.general (Spec.spot i) (Spec.strike i) (Spec.years i)
             (Spec.rate i) (Spec.vol i) (Spec.yield i))).
Proof.
  intros HS HK HT Hsig Hpow. unfold evaluate, evaluate_with.
  rewrite calculate_all_general; unfold_init;
    [reflexivity | lra | assumption | assumption | assumption].
Qed.

(** The square of a volatility of at most [1e100] per cent is in range. *)
Lemma vol_square_in_range (i : Spec.ContractInputs) :
  Rabs (Spec.volatility_pct i) <= 1e100 -> Spec.vol i ^ 2 < float_overflow.
Proof.
  intros H. pose proof float_overflow_bounds as [Hlo _].
  assert (Hv : -1e100 <= Spec.volatility_pct i <= 1e100).
  { unfold Rabs in H. destruct (Rcase_abs _); lra. }
  unfold Spec.vol.
  assert (Hsq : (Spec.volatility_pct i / 100) ^ 2 <= 1e196) by nra.
  lra.
Qed.

Lemma general_branch_closed_forms_witness :
  evaluate one_year_atm =
    Ok (Spec.as_dict
          (Spec.general 100 100 (Spec.years one_year_atm) (Spec.rate one_year_atm)
             (Spec.vol one_year_atm) (Spec.yield one_year_atm))).
Proof.
  assert (HS : 0 < Spec.spot one_year_atm) by (simpl; lra).
  assert (HK : 0 < Spec.strike one_year_atm) by (simpl; lra).
  assert (HT : 1e-9 < Spec.years one_year_atm) by (unfold Spec.years; simpl; lra).
  assert (Hv : 1e-9 < Spec.vol one_year_atm) by (unfold Spec.vol; simpl; lra).
  assert (Hp : Spec.vol one_year_atm ^ 2 < float_overflow).
  { apply vol_square_in_range. simpl. rewrite Rabs_pos_eq; lra. }
  exact (general_branch_closed_forms one_year_atm HS HK HT Hv Hp).
Defined.

(** Claim C2.  At or below the expiry threshold the engine returns the
    intrinsic values whatever the library functions are; the deltas are
    [1.0] and [0.0] in the money, [0.0] and [-1.0] out of the money, and
    both [0.0] at the money; gamma, vega, the thetas and the rhos keep
    their [0.0] default. *)
Theorem expiry_branch_intrinsic (i : Spec.ContractInputs) :
  Spec.years i <= 1e-9 ->
  exists cd pd : R,
    (forall lib, evaluate_with lib i =
       Ok (Spec.as_dict (Spec.intrinsic (Spec.spot i) (Spec.strike i) cd pd)))
    /\ (Spec.spot i > Spec.strike i -> cd = 1 /\ pd = 0)
    /\ (Spec.spot i < Spec.strike i -> cd = 0 /\ pd = -1)
    /\ (Spec.spot i = Spec.strike i -> cd = 0 /\ pd = 0).
Proof.
  intros HT.
  exists (if float_gt (Spec.spot i) (Spec.strike i) then 1 else 0),
    (if float_gt (Spec.spot i) (Spec.strike i) then 0
     else if float_lt (Spec.spot i) (Spec.strike i) then -1 else 0).
  split; [intros lib; apply (calculate_all_expiry (model_of i) lib); exact HT|].
  apply step_deltas.
Qed.

Lemma expiry_branch_intrinsic_witness :
  Spec.years at_expiry <= 1e-9
  /\ exists cd pd : R,
       (forall lib, evaluate_with lib at_expiry =
          Ok (Spec.as_dict (Spec.intrinsic 110 100 cd pd)))
       /\ (110 > 100 -> cd = 1 /\ pd = 0)
       /\ (110 < 100 -> cd = 0 /\ pd = -1)
       /\ (110 = 100 -> cd = 0 /\ pd = 0).
Proof.
  assert (H : Spec.years at_expiry <= 1e-9) by (unfold Spec.years; simpl; lra).
  split; [exact H | exact (expiry_branch_intrinsic at_expiry H)].
Defined.

(** Claim C3.  With time left but the volatility at or below its
    threshold the engine returns the intrinsic values and leaves every
    other field, the deltas included, at [0.0]. *)
Theorem zero_volatility_branch_intrinsic (i : Spec.ContractInputs) :
  1e-9 < Spec.years i -> Spec.vol i <= 1e-9 ->
  forall lib,
    evaluate_with lib i =
      Ok (Spec.as_dict (Spec.intrinsic (Spec.spot i) (Spec.strike i) 0 0)).
Proof.
  intros HT Hsig lib. apply (calculate_all_zero_vol (model_of i) lib); assumption.
Qed.

Lemma zero_volatility_branch_intrinsic_witness :
  1e-9 < Spec.years zero_volatility
  /\ Spec.vol zero_volatility <= 1e-9
  /\ forall lib,
       evaluate_with lib zero_volatility =
         Ok (Spec.as_dict (Spec.intrinsic 110 100 0 0)).
Proof.
  assert (HT : 1e-9 < Spec.years zero_volatility) by (unfold Spec.years; simpl; lra).
  assert (Hv : Spec.vol zero_volatility <= 1e-9) by (unfold Spec.vol; simpl; lra).
  split; [exact HT | split; [exact Hv |]].
  exact (zero_volatility_branch_intrinsic zero_volatility HT Hv).
Defined.

Lemma one_year_atm_in_range : in_range one_year_atm.
Proof.
  unfold in_range, Spec.yield, Spec.years.
  cbn [one_year_atm Spec.spot Spec.strike Spec.time_to_expiry_days
       Spec.risk_free_rate_pct Spec.volatility_pct Spec.dividend_yield_pct].
  repeat split; try lra; unfold Rabs; destruct (Rcase_abs _); lra.
Qed.



Lemma one_year_atm_in_parity_range : in_parity_range one_year_atm.
Proof.
  split; [apply one_year_atm_in_range|].
  unfold Spec.yield, Spec.rate, Spec.years.
  cbn [one_year_atm Spec.spot Spec.strike Spec.time_to_expiry_days
       Spec.risk_free_rate_pct Spec.volatility_pct Spec.dividend_yield_pct].
  repeat split; try lra; unfold Rabs; destruct (Rcase_abs _); lra.
Qed.





(** Claim C10 as stated fails: at expiry and in the money the call delta
    is [1.0], it is not left at [0.0]. *)
Lemma expiry_call_delta_not_default :
  0 < Spec.spot at_expiry /\ 0 < Spec.strike at_expiry
  /\ Spec.time_to_expiry_days at_expiry <= 0
  /\ exists res : dict,
       evaluate at_expiry = Ok res
       /\ res !! str "call_delta" = Some 1
       /\ res !! str "call_delta" <> Some 0.
Proof.
  assert (HT : Spec.years at_expiry <= 1e-9) by (unfold Spec.years; simpl; lra).
  split; [simpl; lra | split; [simpl; lra | split; [simpl; lra |]]].
  eexists. split; [apply (calculate_all_expiry (model_of at_expiry) scipy); exact HT|].
  unfold_init.
  assert (Hgt : float_gt (Spec.spot at_expiry) (Spec.strike at_expiry) = true)
    by (apply float_lt_true; simpl; lra).
  rewrite Hgt.
  split; [apply as_dict_lookup|].
  intros H. rewrite (proj1 (proj2 (proj2 (as_dict_lookup _)))) in H.
  unfold_result. injection H as H. lra.
Qed.

(** Claim C10, amended.  With [S > 0], [K > 0] and a time to expiry or a
    volatility that is zero or negative, the engine takes a degenerate
    branch: the prices are the intrinsic values; gamma, vega, the thetas
    and the rhos are [0.0]; the deltas are [0.0] except in the expiry
    branch away from the money, where they are the step values; every
    field is one of [0], [1], [-1], [S - K] and [K - S]; and the result
    is the same whatever [np.log], [np.sqrt], [np.exp] and the normal
    functions are, so none of them is evaluated. *)
Theorem nonpositive_time_or_volatility_degenerate (i : Spec.ContractInputs) :
  0 < Spec.spot i -> 0 < Spec.strike i ->
  Spec.time_to_expiry_days i <= 0 \/ Spec.volatility_pct i <= 0 ->
  exists cd pd : R,
    (forall lib, evaluate_with lib i =
       Ok (Spec.as_dict (Spec.intrinsic (Spec.spot i) (Spec.strike i) cd pd)))
    /\ (Spec.years i <= 1e-9 ->
        (Spec.spot i > Spec.strike i -> cd = 1 /\ pd = 0)
        /\ (Spec.spot i < Spec.strike i -> cd = 0 /\ pd = -1)
        /\ (Spec.spot i = Spec.strike i -> cd = 0 /\ pd = 0))
    /\ (1e-9 < Spec.years i -> cd = 0 /\ pd = 0)
    /\ map_Forall
         (fun _ v => v = 0 \/ v = 1 \/ v = -1
                     \/ v = Spec.spot i - Spec.strike i
                     \/ v = Spec.strike i - Spec.spot i)
         (Spec.as_dict (Spec.intrinsic (Spec.spot i) (Spec.strike i) cd pd)).
Proof.
  intros HS HK Hdeg.
  destruct (Rle_dec (Spec.years i) 1e-9) as [HT|HT].
  - exists (if float_gt (Spec.spot i) (Spec.strike i) then 1 else 0),
      (if float_gt (Spec.spot i) (Spec.strike i) then 0
       else if float_lt (Spec.spot i) (Spec.strike i) then -1 else 0).
    split; [intros lib; apply (calculate_all_expiry (model_of i) lib); exact HT|].
    split; [intros _; apply step_deltas | split; [intros; lra |]].
    eapply map_Forall_impl; [apply intrinsic_values|].
    intros k v. cbn beta.
    destruct (float_gt _ _); [|destruct (float_lt _ _)]; intuition lra.
  - apply Rnot_le_lt in HT.
    assert (Hv : Spec.vol i <= 1e-9).
    { unfold Spec.years, Spec.vol in *. destruct Hdeg; lra. }
    exists 0, 0.
    split; [intros lib; apply (calculate_all_zero_vol (model_of i) lib); assumption|].
    split; [intros; lra | split; [auto|]].
    eapply map_Forall_impl; [apply intrinsic_values|].
    intros k v. cbn beta. intuition lra.
Qed.

Lemma nonpositive_time_or_volatility_degenerate_witness :
  exists cd pd : R,
    (forall lib, evaluate_with lib past_expiry =
       Ok (Spec.as_dict (Spec.intrinsic 90 100 cd pd)))
    /\ (Spec.years past_expiry <= 1e-9 ->
        (90 > 100 -> cd = 1 /\ pd = 0)
        /\ (90 < 100 -> cd = 0 /\ pd = -1)
        /\ (90 = 100 -> cd = 0 /\ pd = 0))
    /\ (1e-9 < Spec.years past_expiry -> cd = 0 /\ pd = 0)
    /\ map_Forall
         (fun _ v => v = 0 \/ v = 1 \/ v = -1 \/ v = 90 - 100 \/ v = 100 - 90)
         (Spec.as_dict (Spec.intrinsic 90 100 cd pd)).
Proof.
  assert (HS : 0 < Spec.spot past_expiry) by (simpl; lra).
  assert (HK : 0 < Spec.strike past_expiry) by (simpl; lra).
  assert (HT : Spec.time_to_expiry_days past_expiry <= 0) by (simpl; lra).
  exact (nonpositive_time_or_volatility_degenerate past_expiry HS HK (or_introl HT)).
Defined.

(** ** Reading the view *)

Section Reading.

Context (py : builtins) (view : OptionAnalyticsUI.t)
  (base : Spec.ContractInputs) (spec : Spec.SweepSpec).
Hypothesis Hshows : shows py view base spec.

Lemma read_entries_shows :
  read_entries py (entries view) ∅ = Ok (inputs_dict base).
Proof.
  destruct Hshows as [[? HS] [? Hsig] [? Hr] [? Hq] [? HK] [? HT] _ _ _ _ _ _ _ _].
  unfold entries. cbn [read_entries].
  rewrite decide_False, HS by assumption. cbn [mbind result_bind].
  rewrite decide_False, Hsig by assumption. cbn [mbind result_bind].
  rewrite decide_False, Hr by assumption. cbn [mbind result_bind].
  rewrite decide_False, Hq by assumption. cbn [mbind result_bind].
  rewrite decide_False, HK by assumption. cbn [mbind result_bind].
  rewrite decide_False, HT by assumption. reflexivity.
Qed.

Lemma inputs_dict_nonempty : inputs_dict base <> ∅.
Proof. unfold inputs_dict. apply insert_non_empty. Qed.

Lemma get_dashboard_inputs_shows :
  get_dashboard_inputs py view = (Ok (Some (inputs_dict base)), []).
Proof. unfold get_dashboard_inputs. rewrite read_entries_shows. reflexivity. Qed.

Lemma read_params_shows :
  read_params py view =
    if (Spec.step_count spec <=? 1)%Z then Raise (ValueError "Steps must be > 1")
    else Ok (params_of spec).
Proof.
  destruct Hshows as [_ _ _ _ _ _ Hy Hx Ha Hb Hn Hz Hc Hd].
  unfold read_params. rewrite Ha, Hb, Hn, Hc, Hd, Hy, Hx, Hz. reflexivity.
Qed.

Lemma get_analysis_inputs_shows :
  get_analysis_inputs py view =
    if (Spec.step_count spec <=? 1)%Z then
      (Ok None,
       [showerror "Input Error" "Invalid graph settings: Steps must be > 1"])
    else (Ok (Some (inputs_dict base, params_of spec)), []).
Proof.
  unfold get_analysis_inputs.
  rewrite get_dashboard_inputs_shows. cbn [mbind UI_bind].
  rewrite (decide_False _ _ inputs_dict_nonempty), read_params_shows.
  destruct (Spec.step_count spec <=? 1)%Z; reflexivity.
Qed.

(** A sweep with at most one step is refused when the settings are read. *)
Lemma run_analysis_few_steps :
  (Spec.step_count spec <= 1)%Z ->
  run_analysis py view =
    (Ok tt, [showerror "Input Error" "Invalid graph settings: Steps must be > 1"]).
Proof.
  intros Hn. unfold run_analysis.
  rewrite get_analysis_inputs_shows, (proj2 (Z.leb_le _ _) Hn). reflexivity.
Qed.

End Reading.

Lemma var_map_label (x : Spec.variable) :
  var_map !! Spec.label x = Some (field_name x).
Proof. destruct x; reflexivity. Qed.

Lemma field_name_inj (x z : Spec.variable) :
  x <> z -> str (field_name x) <> str (field_name z).
Proof. destruct x, z; intros H; try congruence; discriminate. Qed.

Lemma no_engine_call_dialog (e : event) :
  (forall self, e <> model_calculate_all self) -> no_engine_call [e].
Proof.
  intros He self Hin. apply list_elem_of_singleton in Hin.
  exact (He self (eq_sym Hin)).
Qed.

(** ** The grid *)

Lemma np_linspace_spec (spec : Spec.SweepSpec) :
  (1 < Spec.step_count spec)%Z ->
  np_linspace (Spec.range_start spec) (Spec.range_end spec) (Spec.step_count spec)
  = Spec.independent_values spec.
Proof.
  intros Hn. unfold np_linspace, Spec.independent_values.
  set (a := Spec.range_start spec). set (b := Spec.range_end spec).
  set (n := Spec.step_count spec) in *.
  rewrite (proj2 (Z.ltb_lt 1 n) Hn), (proj2 (Z.ltb_lt 0 (n - 1)) ltac:(lia)).
  assert (Hdiv : IZR (n - 1) = IZR n - 1) by (rewrite minus_IZR; reflexivity).
  assert (Hpos : 0 < IZR n - 1).
  { rewrite <- Hdiv. apply IZR_lt. lia. }
  rewrite Hdiv.
  assert (Hlast : INR (Z.to_nat (n - 1)) = IZR n - 1).
  { rewrite INR_IZR_INZ, Z2Nat.id, Hdiv by lia. reflexivity. }
  apply list_eq. intros j.
  rewrite list_lookup_insert.
  case_decide as Hj.
  - destruct Hj as [<- _]. rewrite list_lookup_fmap, lookup_seq_lt by lia.
    cbn [fmap option_fmap option_map Nat.add]. f_equal. rewrite Hlast. field. lra.
  - clear Hj.
    destruct (float_eq _ _); rewrite !list_lookup_fmap;
      destruct (seq 0 (Z.to_nat n) !! j); cbn [fmap option_fmap option_map];
      try reflexivity; f_equal; field; lra.
Qed.

Lemma z_values_spec (spec : Spec.SweepSpec) :
  (fun i => Spec.series_start spec + INR i * Spec.series_increment spec) <$> seq 0 5
  = Spec.series_values spec.
Proof.
  unfold Spec.series_values. cbn [seq fmap list_fmap].
  repeat f_equal; simpl; lra.
Qed.

Lemma independent_values_length (spec : Spec.SweepSpec) :
  length (Spec.independent_values spec) = Z.to_nat (Spec.step_count spec).
Proof.
  unfold Spec.independent_values. rewrite length_fmap, length_seq. reflexivity.
Qed.

Lemma independent_values_first (spec : Spec.SweepSpec) :
  (1 < Spec.step_count spec)%Z ->
  Spec.independent_values spec !! 0%nat = Some (Spec.range_start spec).
Proof.
  intros Hn. unfold Spec.independent_values.
  rewrite list_lookup_fmap, lookup_seq_lt by lia.
  cbn [fmap option_fmap option_map Nat.add INR]. f_equal. lra.
Qed.

Lemma independent_values_last (spec : Spec.SweepSpec) :
  (1 < Spec.step_count spec)%Z ->
  last (Spec.independent_values spec) = Some (Spec.range_end spec).
Proof.
  intros Hn. rewrite last_lookup, independent_values_length.
  unfold Spec.independent_values.
  rewrite list_lookup_fmap, lookup_seq_lt by lia.
  cbn [fmap option_fmap option_map Nat.add]. f_equal.
  assert (Hpos : 0 < IZR (Spec.step_count spec) - 1).
  { rewrite <- minus_IZR. apply IZR_lt. lia. }
  replace (INR (Nat.pred (Z.to_nat (Spec.step_count spec))))
    with (IZR (Spec.step_count spec) - 1).
  - field. lra.
  - rewrite INR_IZR_INZ, Nat2Z.inj_pred, Z2Nat.id, <- Z.sub_1_r, minus_IZR by lia.
    reflexivity.
Qed.

Example demo_independent_values (x z : Spec.variable) :
  Spec.independent_values (demo_spec x z 3) = [50; 100; 150].
Proof.
  unfold Spec.independent_values, demo_spec.
  cbn [Spec.step_count Spec.range_start Spec.range_end].
  change (Z.to_nat 3) with 3%nat. cbn [seq fmap list_fmap].
  repeat f_equal; simpl; lra.
Qed.

Example demo_series_values (x z : Spec.variable) (steps : Z) :
  Spec.series_values (demo_spec x z steps) = [10; 15; 20; 25; 30].
Proof.
  unfold Spec.series_values, demo_spec.
  cbn [Spec.series_start Spec.series_increment].
  repeat f_equal; lra.
Qed.

(** ** The loops *)

Lemma for_ok {A B : Type} (l : list A) (body : A -> UI B)
    (f : A -> B) (g : A -> list event) :
  (forall a, a ∈ l -> body a = (Ok (f a), g a)) ->
  for_ l body = (Ok (f <$> l), concat (g <$> l)).
Proof.
  induction l as [|a l IH]; intros Hbody; [reflexivity|].
  cbn [for_]. rewrite Hbody by apply list_elem_of_here.
  cbn [mbind UI_bind].
  rewrite IH by (intros a' Ha'; apply Hbody, list_elem_of_further, Ha').
  cbn [mbind UI_bind mret UI_ret fmap list_fmap concat].
  rewrite app_nil_r. reflexivity.
Qed.

Lemma for_single {A B : Type} (l : list A) (body : A -> UI B)
    (f : A -> B) (h : A -> event) :
  (forall a, a ∈ l -> body a = (Ok (f a), [h a])) ->
  for_ l body = (Ok (f <$> l), h <$> l).
Proof.
  intros Hbody. rewrite (for_ok l body f (fun a => [h a])) by exact Hbody.
  f_equal. induction l as [|a l IH]; [reflexivity|].
  cbn [fmap list_fmap concat app]. f_equal. apply IH.
  intros a' Ha'. apply Hbody, list_elem_of_further, Ha'.
Qed.

(** The loop stops at the first body that raises. *)
Lemma for_raise {A B : Type} (a : A) (l : list A) (body : A -> UI B)
    (e : exn) (log : list event) :
  body a = (Raise e, log) -> for_ (a :: l) body = (Raise e, log).
Proof. intros Hbody. cbn [for_]. rewrite Hbody. reflexivity. Qed.

(** ** One cell *)

Section Cell.

Context (base : Spec.ContractInputs) (spec : Spec.SweepSpec).
Hypothesis Hne : Spec.independent_variable spec <> Spec.series_variable spec.

(** The dictionary of a cell holds the inputs of the cell: the model the
    loop builds is the model of a direct call. *)
Lemma cell_direct (y_metric_key : key) (z x : R) :
  cell (inputs_dict base)
    (str (field_name (Spec.independent_variable spec)))
    (str (field_name (Spec.series_variable spec))) y_metric_key z x =
  let model := model_of (Spec.cell_inputs base spec z x) in
  (res ← BlackScholes.calculate_all scipy model; mret (get res y_metric_key 0),
   [model_calculate_all model]).
Proof.
  unfold cell, Spec.cell_inputs, inputs_dict, getitem.
  destruct (Spec.independent_variable spec), (Spec.series_variable spec);
    try congruence; cbn [field_name Spec.override];
    simplify_map_eq; cbn [lift mbind UI_bind tell mret UI_ret app];
    unfold model_of; cbn [Spec.spot Spec.strike Spec.time_to_expiry_days
      Spec.risk_free_rate_pct Spec.volatility_pct Spec.dividend_yield_pct];
    destruct (BlackScholes.calculate_all scipy _); reflexivity.
Qed.

Lemma cell_inputs_strike (z x : R) :
  Spec.strike (Spec.cell_inputs base spec z x) = Spec.strike base.
Proof.
  unfold Spec.cell_inputs.
  destruct (Spec.series_variable spec), (Spec.independent_variable spec);
    reflexivity.
Qed.

Lemma cell_valid (z x : R) :
  (exists res : dict, evaluate (Spec.cell_inputs base spec z x) = Ok res) ->
  cell (inputs_dict base)
    (str (field_name (Spec.independent_variable spec)))
    (str (field_name (Spec.series_variable spec)))
    (metric_map !! Spec.target_metric spec) z x =
  (Ok (direct_cell base spec z x),
   [model_calculate_all (model_of (Spec.cell_inputs base spec z x))]).
Proof.
  intros [res Hres]. rewrite cell_direct. cbn zeta.
  unfold direct_cell. unfold evaluate, evaluate_with in *.
  rewrite Hres. reflexivity.
Qed.

Lemma direct_matrix_cell (i j : nat) (z x : R) :
  grid_returns base spec ->
  Spec.series_values spec !! i = Some z ->
  Spec.independent_values spec !! j = Some x ->
  exists (res : dict) (row : list R),
    evaluate (Spec.cell_inputs base spec z x) = Ok res
    /\ direct_matrix base spec !! i = Some row
    /\ row !! j = Some (get res (metric_map !! Spec.target_metric spec) 0).
Proof.
  intros Hgrid Hz Hx.
  destruct (Hgrid z x) as [res Hres];
    [eapply list_elem_of_lookup_2, Hz | eapply list_elem_of_lookup_2, Hx |].
  exists res, (direct_cell base spec z <$> Spec.independent_values spec).
  split; [exact Hres|]. split.
  - unfold direct_matrix. rewrite list_lookup_fmap, Hz. reflexivity.
  - rewrite list_lookup_fmap, Hx. cbn [fmap option_fmap option_map].
    unfold direct_cell. rewrite Hres. reflexivity.
Qed.

End Cell.

(** ** The sweep *)

Section Sweep.

Context (py : builtins) (view : OptionAnalyticsUI.t)
  (base : Spec.ContractInputs) (spec : Spec.SweepSpec).
Hypothesis Hshows : shows py view base spec.
Hypothesis Hn : (1 < Spec.step_count spec)%Z.

(** Past the two checks the controller runs the two loops over the grid
    of the design document. *)
Lemma run_analysis_loops :
  Spec.independent_variable spec <> Spec.series_variable spec ->
  run_analysis py view =
    (y_matrix ←
       for_ (Spec.series_values spec) (fun z_val =>
         for_ (Spec.independent_values spec) (fun x_val =>
           cell (inputs_dict base)
             (str (field_name (Spec.independent_variable spec)))
             (str (field_name (Spec.series_variable spec)))
             (metric_map !! Spec.target_metric spec) z_val x_val));
     tell (plot_data (Spec.independent_values spec) (Spec.series_values spec)
             y_matrix
             (Spec.label (Spec.independent_variable spec))
             (Spec.target_metric spec)
             (Spec.label (Spec.series_variable spec)))).
Proof.
  intros Hne. unfold run_analysis.
  rewrite (get_analysis_inputs_shows py view base spec Hshows).
  rewrite (proj2 (Z.leb_gt _ _) Hn).
  cbn [mbind UI_bind params_of x_var z_var y_var x_start x_end x_steps z_start z_inc].
  rewrite !var_map_label.
  rewrite decide_False by (apply field_name_inj, Hne).
  rewrite np_linspace_spec, z_values_spec by assumption.
  match goal with
  | |- (let '(b, log') := ?m in _) = _ => destruct m as [b log']
  end.
  reflexivity.
Qed.

Lemma run_analysis_valid :
  Spec.independent_variable spec <> Spec.series_variable spec ->
  grid_returns base spec ->
  run_analysis py view =
    (Ok tt,
     sweep_calls base spec
     ++ [plot_data (Spec.independent_values spec) (Spec.series_values spec)
           (direct_matrix base spec)
           (Spec.label (Spec.independent_variable spec))
           (Spec.target_metric spec)
           (Spec.label (Spec.series_variable spec))]).
Proof.
  intros Hne HK. rewrite run_analysis_loops by exact Hne.
  rewrite (for_ok (Spec.series_values spec) _
             (fun z => direct_cell base spec z <$> Spec.independent_values spec)
             (fun z => (fun x => model_calculate_all
                                   (model_of (Spec.cell_inputs base spec z x)))
                       <$> Spec.independent_values spec)).
  - reflexivity.
  - intros z Hz. apply for_single. intros x Hx.
    apply cell_valid; [assumption | apply HK; assumption].
Qed.

Lemma run_analysis_same_variable :
  Spec.independent_variable spec = Spec.series_variable spec ->
  run_analysis py view =
    (Ok tt,
     [showwarning "Configuration Error"
        "X-Axis and Z-Axis variables must be different."]).
Proof.
  intros Heq. unfold run_analysis.
  rewrite (get_analysis_inputs_shows py view base spec Hshows).
  rewrite (proj2 (Z.leb_gt _ _) Hn).
  cbn [mbind UI_bind params_of x_var z_var y_var x_start x_end x_steps z_start z_inc].
  rewrite Heq, decide_True by reflexivity. reflexivity.
Qed.

End Sweep.

Ltac demo_shows := constructor; try split; try discriminate; reflexivity.

(** The engine returns on an input with a strike that is not zero and a
    volatility of at most [1e100] per cent. *)
Lemma evaluate_returns (i : Spec.ContractInputs) :
  Spec.strike i <> 0 -> Rabs (Spec.volatility_pct i) <= 1e100 ->
  exists res : dict, evaluate i = Ok res.
Proof.
  intros HK Hvol. apply calculate_all_total; unfold_init.
  - exact HK.
  - apply vol_square_in_range, Hvol.
Qed.

(** The grid of the examples: the spot from 50 to 150 in three steps,
    the volatility from 10 by 5, over [one_year_atm]. *)
Lemma demo_grid_returns :
  grid_returns one_year_atm (demo_spec Spec.spot_price Spec.volatility 3).
Proof.
  intros z x Hz Hx. rewrite demo_series_values in Hz.
  apply evaluate_returns.
  - cbn. lra.
  - unfold Spec.cell_inputs.
    cbn [demo_spec Spec.series_variable Spec.independent_variable Spec.override
         Spec.volatility_pct].
    repeat (apply elem_of_cons in Hz as [->|Hz];
            [unfold Rabs; destruct (Rcase_abs _); lra|]).
    apply elem_of_nil in Hz. contradiction.
Qed.




(** ** Refused sweeps *)

(** Claim C7 as stated fails: with the same variable on both axes and a
    step count of one, the sweep is refused with the input error of the
    range, not with the configuration error. *)
Lemma same_variable_one_step_input_error :
  let spec := demo_spec Spec.volatility Spec.volatility 1 in
  let view := demo_view "100" "Volatility" "Volatility" "1" in
  shows demo_py view one_year_atm spec
  /\ Spec.independent_variable spec = Spec.series_variable spec
  /\ run_analysis demo_py view =
       (Ok tt, [showerror "Input Error" "Invalid graph settings: Steps must be > 1"])
  /\ run_analysis demo_py view <>
       (Ok tt,
        [showwarning "Configuration Error"
           "X-Axis and Z-Axis variables must be different."]).
Proof.
  intros spec view.
  assert (Hshows : shows demo_py view one_year_atm spec) by demo_shows.
  assert (Hrun := run_analysis_few_steps demo_py view one_year_atm spec Hshows
                    ltac:(simpl; lia)).
  split; [exact Hshows | split; [reflexivity | split; [exact Hrun|]]].
  rewrite Hrun. discriminate.
Qed.

(** Claim C7, amended.  When the independent variable is the series
    variable and the step count is more than one, the sweep is refused
    with the configuration error, whatever the other settings are, and
    the engine is not called. *)
Theorem same_variable_refused (py : builtins) (view : OptionAnalyticsUI.t)
    (base : Spec.ContractInputs) (spec : Spec.SweepSpec) :
  shows py view base spec ->
  Spec.independent_variable spec = Spec.series_variable spec ->
  (1 < Spec.step_count spec)%Z ->
  run_analysis py view =
    (Ok tt,
     [showwarning "Configuration Error"
        "X-Axis and Z-Axis variables must be different."])
  /\ no_engine_call (snd (run_analysis py view)).
Proof.
  intros Hshows Heq Hn.
  rewrite (run_analysis_same_variable py view base spec) by assumption.
  split; [reflexivity|]. apply no_engine_call_dialog. discriminate.
Qed.

Lemma same_variable_refused_witness :
  let view := demo_view "100" "Volatility" "Volatility" "3" in
  run_analysis demo_py view =
    (Ok tt,
     [showwarning "Configuration Error"
        "X-Axis and Z-Axis variables must be different."])
  /\ no_engine_call (snd (run_analysis demo_py view)).
Proof.
  intros view.
  pose (spec := demo_spec Spec.volatility Spec.volatility 3).
  assert (Hshows : shows demo_py view one_year_atm spec) by demo_shows.
  assert (Heq : Spec.independent_variable spec = Spec.series_variable spec)
    by reflexivity.
  assert (Hn : (1 < Spec.step_count spec)%Z) by (simpl; lia).
  exact (same_variable_refused demo_py view one_year_atm spec Hshows Heq Hn).
Defined.

(** Claim C8.  With a step count of one or less the sweep is refused with
    the input error of the range, whatever the base and the other
    settings are, and the engine is not called. *)
Theorem few_steps_refused (py : builtins) (view : OptionAnalyticsUI.t)
    (base : Spec.ContractInputs) (spec : Spec.SweepSpec) :
  shows py view base spec ->
  (Spec.step_count spec <= 1)%Z ->
  run_analysis py view =
    (Ok tt, [showerror "Input Error" "Invalid graph settings: Steps must be > 1"])
  /\ no_engine_call (snd (run_analysis py view)).
Proof.
  intros Hshows Hn.
  rewrite (run_analysis_few_steps py view base spec) by assumption.
  split; [reflexivity|]. apply no_engine_call_dialog. discriminate.
Qed.

Lemma few_steps_refused_witness :
  let view := demo_view "100" "Spot Price" "Volatility" "1" in
  run_analysis demo_py view =
    (Ok tt, [showerror "Input Error" "Invalid graph settings: Steps must be > 1"])
  /\ no_engine_call (snd (run_analysis demo_py view)).
Proof.
  intros view.
  pose (spec := demo_spec Spec.spot_price Spec.volatility 1).
  assert (Hshows : shows demo_py view one_year_atm spec) by demo_shows.
  assert (Hn : (Spec.step_count spec <= 1)%Z) by (simpl; lia).
  exact (few_steps_refused demo_py view one_year_atm spec Hshows Hn).
Defined.

(** ** Extraction of the target metric *)

(** Claim C9.  In every cell whose engine call returns, the extraction of
    the target metric returns too: the cell is the value found under the
    key, and [0.0] when the result has no such key, as for a label the
    metric map does not know; the labels Theta and Rho stand for the call
    theta and the call rho. *)
Theorem metric_extraction_lenient (base : Spec.ContractInputs)
    (spec : Spec.SweepSpec) (z x : R) (res : dict) :
  Spec.independent_variable spec <> Spec.series_variable spec ->
  evaluate (Spec.cell_inputs base spec z x) = Ok res ->
  let run := fun y_metric_key : key =>
    cell (inputs_dict base)
      (var_map !! Spec.label (Spec.independent_variable spec))
      (var_map !! Spec.label (Spec.series_variable spec)) y_metric_key z x in
  let call := model_calculate_all (model_of (Spec.cell_inputs base spec z x)) in
  (forall k : key, run k = (Ok (get res k 0), [call]))
  /\ (forall k : key, res !! k = None -> run k = (Ok 0, [call]))
  /\ (forall label : string,
        metric_map !! label = None -> run (metric_map !! label) = (Ok 0, [call]))
  /\ metric_map !! "Theta" = Some "call_theta"
  /\ metric_map !! "Rho" = Some "call_rho"
  /\ (exists v : R,
        res !! str "call_theta" = Some v
        /\ run (metric_map !! "Theta") = (Ok v, [call]))
  /\ (exists v : R,
        res !! str "call_rho" = Some v
        /\ run (metric_map !! "Rho") = (Ok v, [call])).
Proof.
  intros Hne Hres run call. unfold evaluate, evaluate_with in Hres.
  assert (Hrun : forall k : key, run k = (Ok (get res k 0), [call])).
  { intros k. unfold run, call.
    rewrite !var_map_label, cell_direct by exact Hne.
    cbn zeta. rewrite Hres. reflexivity. }
  destruct (calculate_all_shape _ _ Hres) as [p ->].
  split; [exact Hrun|].
  split; [intros k Hk; rewrite Hrun, get_missing by exact Hk; reflexivity|].
  split.
  { intros label Hlabel. rewrite Hrun, Hlabel, get_missing; [reflexivity|].
    apply as_dict_lookup_None. }
  split; [reflexivity|]. split; [reflexivity|].
  split.
  - exists (Spec.call_theta p). split; [apply as_dict_lookup|]. apply Hrun.
  - exists (Spec.call_rho p). split; [apply as_dict_lookup|]. apply Hrun.
Qed.

Lemma metric_extraction_lenient_witness :
  let spec := demo_spec Spec.spot_price Spec.volatility 3 in
  let res :=
    Spec.as_dict (Spec.general 50 100 (365 / 365) (5 / 100) (10 / 100) (0 / 100)) in
  let run := fun y_metric_key : key =>
    cell (inputs_dict one_year_atm) (str "S") (str "sigma") y_metric_key 10 50 in
  let call :=
    model_calculate_all (model_of (Spec.cell_inputs one_year_atm spec 10 50)) in
  (forall k : key, run k = (Ok (get res k 0), [call]))
  /\ (forall k : key, res !! k = None -> run k = (Ok 0, [call]))
  /\ (forall label : string,
        metric_map !! label = None -> run (metric_map !! label) = (Ok 0, [call]))
  /\ metric_map !! "Theta" = Some "call_theta"
  /\ metric_map !! "Rho" = Some "call_rho"
  /\ (exists v : R,
        res !! str "call_theta" = Some v
        /\ run (metric_map !! "Theta") = (Ok v, [call]))
  /\ (exists v : R,
        res !! str "call_rho" = Some v
        /\ run (metric_map !! "Rho") = (Ok v, [call])).
Proof.
  intros spec res.
  assert (Hne : Spec.independent_variable spec <> Spec.series_variable spec)
    by discriminate.
  assert (Hres : evaluate (Spec.cell_inputs one_year_atm spec 10 50) = Ok res).
  { apply calculate_all_general;
      [simpl; lra | simpl; lra | simpl; lra |].
    apply Rlt_trans with 1.797e308; [simpl; lra | apply float_overflow_bounds]. }
  exact (metric_extraction_lenient one_year_atm spec 10 50 res Hne Hres).
Defined.

(** * Part III: further properties *)

(** ** The engine: shape and failure *)

Section Engine.

Import BlackScholes.

Context (lib : numlib) (self : BlackScholes.t).

(** The general branch for an arbitrary library. *)
Lemma calculate_all_general_lib :
  K self <> 0 -> 1e-9 < T self -> 1e-9 < sigma self ->
  sigma self ^ 2 < float_overflow ->
  exists p : Spec.PricingResult, calculate_all lib self = Ok (Spec.as_dict p).
Proof.
  intros HK HT Hsig Hpow. unfold calculate_all, _d1_d2.
  apply float_le_false in HT as ->. apply float_le_false in Hsig as ->.
  cbn [orb]. rewrite truediv_ok, float_pow_ok by assumption.
  cbn [mbind result_bind mret result_ret].
  eexists (Spec.Build_PricingResult _ _ _ _ _ _ _ _ _ _).
  reflexivity.
Qed.

(** The four ways a call of the engine ends. *)
Lemma calculate_all_cases :
  (exists p, calculate_all lib self = Ok (Spec.as_dict p))
  \/ (calculate_all lib self = Raise ZeroDivisionError
      /\ K self = 0 /\ 1e-9 < T self /\ 1e-9 < sigma self)
  \/ (calculate_all lib self = Raise OverflowError
      /\ K self <> 0 /\ 1e-9 < T self /\ 1e-9 < sigma self
      /\ float_overflow <= sigma self ^ 2).
Proof.
  destruct (Rle_dec (T self) 1e-9) as [HT|HT].
  - left. rewrite calculate_all_expiry by exact HT. eauto.
  - apply Rnot_le_lt in HT.
    destruct (Rle_dec (sigma self) 1e-9) as [Hv|Hv].
    + left. rewrite calculate_all_zero_vol by assumption. eauto.
    + apply Rnot_le_lt in Hv.
      destruct (Req_dec_T (K self) 0) as [HK|HK].
      * right. left. rewrite calculate_all_zero_strike by assumption. auto.
      * destruct (Rlt_dec (sigma self ^ 2) float_overflow) as [Hpow|Hpow].
        -- left. apply calculate_all_general_lib; assumption.
        -- apply Rnot_lt_le in Hpow. right. right.
           rewrite calculate_all_overflow by assumption. auto.
Qed.

Lemma calculate_all_shape_lib (res : dict) :
  calculate_all lib self = Ok res ->
  exists p : Spec.PricingResult, res = Spec.as_dict p.
Proof.
  intros Hres.
  destruct calculate_all_cases as [[p Hp] | [[Hr _] | [Hr _]]];
    [|congruence|congruence].
  rewrite Hres in Hp. apply Ok_inj in Hp as ->. eauto.
Qed.

End Engine.

Lemma as_dict_dom (p : Spec.PricingResult) :
  dom (Spec.as_dict p) = list_to_set (str <$> result_keys).
Proof. reflexivity. Qed.

(** X1.  The engine raises in two situations only, both in the general
    branch ([T > 1e-9] and [sigma > 1e-9]): [ZeroDivisionError] when the
    strike is zero, and [OverflowError] when the strike is not zero and
    the square of [sigma] is out of the range of a float.  In both
    degenerate branches it returns whatever the strike and the volatility
    are. *)
Theorem engine_raises_iff (lib : numlib) (self : BlackScholes.t) :
  (forall e, BlackScholes.calculate_all lib self = Raise e ->
     e = ZeroDivisionError \/ e = OverflowError)
  /\ (BlackScholes.calculate_all lib self = Raise ZeroDivisionError
      <-> BlackScholes.K self = 0
          /\ 1e-9 < BlackScholes.T self /\ 1e-9 < BlackScholes.sigma self)
  /\ (BlackScholes.calculate_all lib self = Raise OverflowError
      <-> BlackScholes.K self <> 0
          /\ 1e-9 < BlackScholes.T self /\ 1e-9 < BlackScholes.sigma self
          /\ float_overflow <= BlackScholes.sigma self ^ 2).
Proof.
  pose proof (calculate_all_cases lib self) as Hcases.
  split; [|split; split].
  - intros e He.
    destruct Hcases as [[p Hp] | [[Hr _] | [Hr _]]];
      [congruence | left; congruence | right; congruence].
  - intros He.
    destruct Hcases as [[p Hp] | [[_ H] | [Hr _]]];
      [congruence | exact H | congruence].
  - intros (HK & HT & Hv). apply calculate_all_zero_strike; assumption.
  - intros He.
    destruct Hcases as [[p Hp] | [[Hr _] | [_ H]]];
      [congruence | congruence | exact H].
  - intros (HK & HT & Hv & Hpow). apply calculate_all_overflow; assumption.
Qed.

(** X2.  Whenever the engine returns, in any of its branches and with any
    library, the dictionary has the ten keys of the literal and no other
    key. *)
Theorem engine_result_has_the_ten_keys (lib : numlib) (self : BlackScholes.t)
    (res : dict) :
  BlackScholes.calculate_all lib self = Ok res ->
  dom res = list_to_set (str <$> result_keys)
  /\ forall k : key, is_Some (res !! k) <-> exists s, k = str s /\ s ∈ result_keys.
Proof.
  intros Hres. destruct (calculate_all_shape_lib lib self res Hres) as [p ->].
  split; [apply as_dict_dom|].
  intros k. rewrite <- elem_of_dom, as_dict_dom, elem_of_list_to_set, list_elem_of_fmap.
  split; intros (s & Hs & Hin); eauto.
Qed.

Lemma engine_result_has_the_ten_keys_witness :
  let res := Spec.as_dict (Spec.intrinsic 110 100 0 0) in
  dom res = list_to_set (str <$> result_keys)
  /\ forall k : key, is_Some (res !! k) <-> exists s, k = str s /\ s ∈ result_keys.
Proof.
  intros res.
  assert (Hres : BlackScholes.calculate_all scipy (model_of zero_volatility) = Ok res).
  { apply calculate_all_zero_vol; simpl; lra. }
  exact (engine_result_has_the_ten_keys scipy (model_of zero_volatility) res Hres).
Defined.

(** X3.  In both degenerate branches the two prices are not negative, at
    most one of them is not zero, and the call price minus the put price
    is [S - K], without discounting. *)
Theorem degenerate_prices (lib : numlib) (self : BlackScholes.t) :
  BlackScholes.T self <= 1e-9 \/ BlackScholes.sigma self <= 1e-9 ->
  exists (res : dict) (c p : R),
    BlackScholes.calculate_all lib self = Ok res
    /\ res !! str "call_price" = Some c
    /\ res !! str "put_price" = Some p
    /\ 0 <= c /\ 0 <= p /\ (c = 0 \/ p = 0)
    /\ c - p = BlackScholes.S self - BlackScholes.K self.
Proof.
  intros Hdeg.
  assert (Hres : exists cd pd,
            BlackScholes.calculate_all lib self =
              Ok (Spec.as_dict
                    (Spec.intrinsic (BlackScholes.S self) (BlackScholes.K self) cd pd))).
  { destruct (Rle_dec (BlackScholes.T self) 1e-9) as [HT|HT].
    - rewrite calculate_all_expiry by exact HT. eauto.
    - apply Rnot_le_lt in HT.
      rewrite calculate_all_zero_vol by (try assumption; destruct Hdeg; lra). eauto. }
  destruct Hres as (cd & pd & ->).
  eexists _, _, _. split; [reflexivity|].
  split; [apply as_dict_lookup|]. split; [apply as_dict_lookup|].
  unfold_result. unfold Rmax.
  destruct (Rle_dec 0 (BlackScholes.S self - BlackScholes.K self)),
    (Rle_dec 0 (BlackScholes.K self - BlackScholes.S self));
    repeat split; try lra; (left; lra) || (right; lra).
Qed.

Lemma degenerate_prices_witness :
  exists (res : dict) (c p : R),
    BlackScholes.calculate_all scipy (model_of past_expiry) = Ok res
    /\ res !! str "call_price" = Some c
    /\ res !! str "put_price" = Some p
    /\ 0 <= c /\ 0 <= p /\ (c = 0 \/ p = 0)
    /\ c - p = 90 - 100.
Proof.
  assert (H : BlackScholes.T (model_of past_expiry) <= 1e-9) by (simpl; lra).
  exact (degenerate_prices scipy (model_of past_expiry) (or_introl H)).
Defined.

(** ** The view: reading the entries *)

Section Entries.

Context (py : builtins).

Lemma read_entries_app_good (pre rest : list (string * string)) (data : dict) :
  Forall (reads_well py) pre ->
  exists data' : dict,
    read_entries py (pre ++ rest) data = read_entries py rest data'.
Proof.
  revert data. induction pre as [|[key text] pre IH]; intros data Hpre.
  - exists data. reflexivity.
  - apply Forall_cons in Hpre as [[Hne [x Hx]] Hpre]. cbn in Hne, Hx.
    cbn [app read_entries]. rewrite decide_False, Hx by exact Hne.
    cbn [mbind result_bind]. apply IH, Hpre.
Qed.

(** X6.  The first entry, in the order S, sigma, r, q, K, T, that is
    blank or that [float] refuses decides the dialog of
    [get_dashboard_inputs]: it names the key of a blank entry, and gives
    the message of [float] otherwise; later entries are not read, and the
    function returns [None]. *)
Theorem first_bad_entry_reported (view : OptionAnalyticsUI.t)
    (pre post : list (string * string)) (key text msg : string) :
  entries view = pre ++ (key, text) :: post ->
  Forall (reads_well py) pre ->
  text = "" \/ float py text = Raise (ValueError msg) ->
  get_dashboard_inputs py view =
    (Ok None,
     [showerror "Input Error"
        ("Invalid input: "
         +:+ (if decide (text = "") then "Missing value for " +:+ key else msg)
         +:+ newline +:+ "Please enter numeric values.")]).
Proof.
  intros Hsplit Hpre Hbad. unfold get_dashboard_inputs. rewrite Hsplit.
  destruct (read_entries_app_good pre ((key, text) :: post) ∅ Hpre) as [data ->].
  cbn [read_entries]. destruct (decide (text = "")) as [Hblank|Hblank].
  - reflexivity.
  - destruct Hbad as [?|Hbad]; [contradiction|]. rewrite Hbad. reflexivity.
Qed.

End Entries.

Lemma first_bad_entry_reported_witness :
  get_dashboard_inputs demo_py (demo_view "" "Spot Price" "Volatility" "3") =
    (Ok None,
     [showerror "Input Error"
        ("Invalid input: " +:+ "Missing value for K"
         +:+ newline +:+ "Please enter numeric values.")]).
Proof.
  assert (Hsplit :
    entries (demo_view "" "Spot Price" "Volatility" "3")
    = [("S", "100"); ("sigma", "20"); ("r", "5"); ("q", "0")]
      ++ ("K", "") :: [("T", "365")]) by reflexivity.
  assert (Hpre : Forall (reads_well demo_py)
                   [("S", "100"); ("sigma", "20"); ("r", "5"); ("q", "0")]).
  { repeat constructor; try discriminate; cbn; eauto. }
  exact (first_bad_entry_reported demo_py _ _ _ "K" "" "" Hsplit Hpre
           (or_introl eq_refl)).
Defined.

Section Entries2.

Context (py : builtins) (view : OptionAnalyticsUI.t).

Lemma shows_base_dict (base : Spec.ContractInputs) :
  shows_base py view base ->
  get_dashboard_inputs py view = (Ok (Some (inputs_dict base)), []).
Proof.
  intros ([? HS] & [? Hsig] & [? Hr] & [? Hq] & [? HK] & [? HT]).
  unfold get_dashboard_inputs, entries. cbn [read_entries].
  rewrite decide_False, HS by assumption. cbn [mbind result_bind].
  rewrite decide_False, Hsig by assumption. cbn [mbind result_bind].
  rewrite decide_False, Hr by assumption. cbn [mbind result_bind].
  rewrite decide_False, Hq by assumption. cbn [mbind result_bind].
  rewrite decide_False, HK by assumption. cbn [mbind result_bind].
  rewrite decide_False, HT by assumption. reflexivity.
Qed.

(** The three ways [get_dashboard_inputs] ends. *)
Lemma get_dashboard_inputs_cases :
  (exists base, shows_base py view base
                /\ get_dashboard_inputs py view = (Ok (Some (inputs_dict base)), []))
  \/ (exists msg, get_dashboard_inputs py view
                  = (Ok None, [showerror "Input Error" msg]))
  \/ (exists e, get_dashboard_inputs py view = (Raise e, [])).
Proof.
  unfold get_dashboard_inputs, entries. cbn [read_entries].
  destruct (decide (entry_S view = "")) as [|H1]; [right; left; eauto|].
  destruct (float py (entry_S view)) as [s|[m|k| |]] eqn:E1;
    [|right; left; eauto|right; right; eauto|right; right; eauto
     |right; right; eauto].
  cbn [mbind result_bind].
  destruct (decide (entry_sigma view = "")) as [|H2]; [right; left; eauto|].
  destruct (float py (entry_sigma view)) as [sg|[m|k| |]] eqn:E2;
    [|right; left; eauto|right; right; eauto|right; right; eauto
     |right; right; eauto].
  cbn [mbind result_bind].
  destruct (decide (entry_r view = "")) as [|H3]; [right; left; eauto|].
  destruct (float py (entry_r view)) as [r|[m|k| |]] eqn:E3;
    [|right; left; eauto|right; right; eauto|right; right; eauto
     |right; right; eauto].
  cbn [mbind result_bind].
  destruct (decide (entry_q view = "")) as [|H4]; [right; left; eauto|].
  destruct (float py (entry_q view)) as [q|[m|k| |]] eqn:E4;
    [|right; left; eauto|right; right; eauto|right; right; eauto
     |right; right; eauto].
  cbn [mbind result_bind].
  destruct (decide (entry_K view = "")) as [|H5]; [right; left; eauto|].
  destruct (float py (entry_K view)) as [k|[m|k| |]] eqn:E5;
    [|right; left; eauto|right; right; eauto|right; right; eauto
     |right; right; eauto].
  cbn [mbind result_bind].
  destruct (decide (entry_T view = "")) as [|H6]; [right; left; eauto|].
  destruct (float py (entry_T view)) as [t|[m|k'| |]] eqn:E6;
    [|right; left; eauto|right; right; eauto|right; right; eauto
     |right; right; eauto].
  left.
  exists {| Spec.spot := s; Spec.strike := k; Spec.time_to_expiry_days := t;
            Spec.risk_free_rate_pct := r; Spec.volatility_pct := sg;
            Spec.dividend_yield_pct := q |}.
  split; [|reflexivity].
  unfold shows_base. cbn. auto 12.
Qed.

(** X7.  [get_dashboard_inputs] returns a dictionary exactly when each of
    the six entries is not blank and is accepted by [float]; it then shows
    no dialog, and the dictionary holds the six numbers under the keys S,
    sigma, r, q, K and T and nothing else. *)
Theorem dashboard_inputs_all_or_nothing (data : dict) :
  ((exists log, get_dashboard_inputs py view = (Ok (Some data), log))
   <-> exists base, shows_base py view base /\ data = inputs_dict base)
  /\ (forall log, get_dashboard_inputs py view = (Ok (Some data), log) ->
      log = []
      /\ dom data = list_to_set (str <$> ["S"; "sigma"; "r"; "q"; "K"; "T"])).
Proof.
  assert (Hfwd : forall log, get_dashboard_inputs py view = (Ok (Some data), log) ->
            log = [] /\ exists base, shows_base py view base /\ data = inputs_dict base).
  { intros log Hlog.
    destruct get_dashboard_inputs_cases as [(base & Hb & Hg) | [[m Hg] | [e Hg]]];
      rewrite Hg in Hlog; try discriminate.
    injection Hlog as <- <-. eauto. }
  split; [split|].
  - intros [log Hlog]. apply (Hfwd log Hlog).
  - intros (base & Hb & ->). exists []. apply shows_base_dict, Hb.
  - intros log Hlog. destruct (Hfwd log Hlog) as (-> & base & _ & ->).
    split; [reflexivity|].
    unfold inputs_dict. rewrite !dom_insert_L, dom_empty_L. set_solver.
Qed.

End Entries2.

(** ** The view: reading the graph settings *)

Section Settings.

Context (py : builtins) (view : OptionAnalyticsUI.t).

Lemma read_params_first_raise (e : exn) :
  first_raise (setting_outcomes py view) = Some e ->
  read_params py view = Raise e.
Proof.
  unfold first_raise, setting_outcomes, read_params.
  destruct (float py (entry_x_start view)) as [a|e1];
    [|cbn; intros [= <-]; reflexivity].
  destruct (float py (entry_x_end view)) as [b|e2];
    [|cbn; intros [= <-]; reflexivity].
  destruct (int py (entry_x_steps view)) as [n|e3];
    [|cbn; intros [= <-]; reflexivity].
  destruct (float py (entry_z_start view)) as [c|e4];
    [|cbn; intros [= <-]; reflexivity].
  destruct (float py (entry_z_inc view)) as [d|e5];
    [|cbn; intros [= <-]; reflexivity].
  cbn. discriminate.
Qed.

Lemma read_params_all_parse :
  first_raise (setting_outcomes py view) = None ->
  exists (a b : R) (n : Z) (c d : R),
    float py (entry_x_start view) = Ok a
    /\ float py (entry_x_end view) = Ok b
    /\ int py (entry_x_steps view) = Ok n
    /\ float py (entry_z_start view) = Ok c
    /\ float py (entry_z_inc view) = Ok d
    /\ read_params py view =
         if (n <=? 1)%Z then Raise (ValueError "Steps must be > 1")
         else Ok {| y_var := combo_y view; x_var := combo_x view;
                    x_start := a; x_end := b; x_steps := n;
                    z_var := combo_z view; z_start := c; z_inc := d |}.
Proof.
  unfold first_raise, setting_outcomes, read_params.
  destruct (float py (entry_x_start view)) as [a|e1]; [|cbn; discriminate].
  destruct (float py (entry_x_end view)) as [b|e2]; [|cbn; discriminate].
  destruct (int py (entry_x_steps view)) as [n|e3]; [|cbn; discriminate].
  destruct (float py (entry_z_start view)) as [c|e4]; [|cbn; discriminate].
  destruct (float py (entry_z_inc view)) as [d|e5]; [|cbn; discriminate].
  intros _. exists a, b, n, c, d. repeat split; reflexivity.
Qed.

(** X8.  Among the five graph settings, read in the order x start, x end,
    steps, z start, z increment, the first one that is not a number
    decides the dialog of the analysis, even when it comes after the step
    count and the step count is one or less: the check of the step count
    runs only when all five are numbers.  The engine is not called. *)
Theorem first_bad_setting_reported (base : Spec.ContractInputs) (msg : string) :
  shows_base py view base ->
  first_raise (setting_outcomes py view) = Some (ValueError msg) ->
  run_analysis py view =
    (Ok tt, [showerror "Input Error" ("Invalid graph settings: " +:+ msg)])
  /\ no_engine_call (snd (run_analysis py view)).
Proof.
  intros Hbase Hfirst.
  assert (Hrun : run_analysis py view =
            (Ok tt, [showerror "Input Error" ("Invalid graph settings: " +:+ msg)])).
  { unfold run_analysis, get_analysis_inputs.
    rewrite (shows_base_dict py view base Hbase). cbn [mbind UI_bind].
    rewrite (decide_False _ _ (inputs_dict_nonempty base)).
    rewrite (read_params_first_raise _ Hfirst). reflexivity. }
  rewrite Hrun. split; [reflexivity|].
  apply no_engine_call_dialog. discriminate.
Qed.

End Settings.

Lemma first_bad_setting_reported_witness :
  run_analysis demo_py demo_view_bad_increment =
    (Ok tt,
     [showerror "Input Error"
        ("Invalid graph settings: "
         +:+ "could not convert string to float: five")])
  /\ no_engine_call (snd (run_analysis demo_py demo_view_bad_increment)).
Proof.
  assert (Hbase : shows_base demo_py demo_view_bad_increment one_year_atm).
  { unfold shows_base. repeat split; try discriminate; reflexivity. }
  assert (Hfirst : first_raise (setting_outcomes demo_py demo_view_bad_increment)
                   = Some (ValueError "could not convert string to float: five"))
    by reflexivity.
  exact (first_bad_setting_reported demo_py demo_view_bad_increment one_year_atm
           _ Hbase Hfirst).
Defined.

(** ** The controller: how an analysis ends *)

Lemma var_map_values (label field : string) :
  var_map !! label = Some field -> field ∈ ["S"; "sigma"; "T"; "r"].
Proof.
  intros H. apply elem_of_list_to_map_2 in H.
  repeat (apply elem_of_cons in H as [[= _ <-]|H];
          [repeat first [apply list_elem_of_here | apply list_elem_of_further]|]).
  apply elem_of_nil in H. contradiction.
Qed.

Lemma var_map_not_K (label : string) : var_map !! label <> Some "K".
Proof.
  intros H. apply var_map_values in H.
  repeat (apply elem_of_cons in H as [H|H]; [discriminate|]).
  apply elem_of_nil in H. contradiction.
Qed.

Lemma var_map_not_q (label : string) : var_map !! label <> Some "q".
Proof.
  intros H. apply var_map_values in H.
  repeat (apply elem_of_cons in H as [H|H]; [discriminate|]).
  apply elem_of_nil in H. contradiction.
Qed.

Lemma getitem_Some (d : dict) (k : key) (v : R) :
  d !! k = Some v -> getitem d k = Ok v.
Proof. unfold getitem. intros ->. reflexivity. Qed.

(** A cell prices one model, whatever the three keys are; the strike and
    the yield of the model are those of the base when neither key names
    them. *)
Lemma cell_call (base : Spec.ContractInputs) (xn zn yk : key) (z x : R) :
  xn <> str "K" -> zn <> str "K" -> xn <> str "q" -> zn <> str "q" ->
  exists model : BlackScholes.t,
    BlackScholes.K model = Spec.strike base
    /\ BlackScholes.q model = Spec.dividend_yield_pct base / 100
    /\ cell (inputs_dict base) xn zn yk z x =
         match BlackScholes.calculate_all scipy model with
         | Ok res => (Ok (get res yk 0), [model_calculate_all model])
         | Raise e => (Raise e, [model_calculate_all model])
         end.
Proof.
  intros HxK HzK Hxq Hzq.
  set (d := <[zn := z]> (<[xn := x]> (inputs_dict base))).
  assert (Hall : forall k, is_Some (inputs_dict base !! k) -> is_Some (d !! k)).
  { intros k Hk. unfold d. rewrite !lookup_insert_is_Some'. auto. }
  assert (HK : d !! str "K" = Some (Spec.strike base)).
  { unfold d. rewrite !lookup_insert_ne by congruence. reflexivity. }
  assert (Hq : d !! str "q" = Some (Spec.dividend_yield_pct base)).
  { unfold d. rewrite !lookup_insert_ne by congruence. reflexivity. }
  destruct (Hall (str "S")) as [s Hs]; [eexists; reflexivity|].
  destruct (Hall (str "T")) as [t Ht]; [eexists; reflexivity|].
  destruct (Hall (str "r")) as [r Hr]; [eexists; reflexivity|].
  destruct (Hall (str "sigma")) as [sg Hsg]; [eexists; reflexivity|].
  exists (BlackScholes.__init__ s (Spec.strike base) t r sg
            (Spec.dividend_yield_pct base)).
  split; [reflexivity|]. split; [reflexivity|].
  unfold cell. fold d.
  rewrite (getitem_Some _ _ _ Hs), (getitem_Some _ _ _ HK),
    (getitem_Some _ _ _ Ht), (getitem_Some _ _ _ Hr),
    (getitem_Some _ _ _ Hsg), (getitem_Some _ _ _ Hq).
  cbn [lift mbind UI_bind tell mret UI_ret app].
  destruct (BlackScholes.calculate_all scipy _); reflexivity.
Qed.

(** A loop keeps what its bodies keep: the events each body leaves, and
    what holds of the exception and of the events when a body raises. *)
Lemma for_calls {A B : Type} (l : list A) (body : A -> UI B) (n : nat)
    (C : event -> Prop) (Q : B -> Prop) (F : exn -> list event -> Prop) :
  (forall e log log', F e log' -> F e (log ++ log')) ->
  (forall a, a ∈ l ->
     (exists b log, body a = (Ok b, log) /\ Forall C log
                    /\ length log = n /\ Q b)
     \/ (exists e log, body a = (Raise e, log) /\ Forall C log /\ F e log)) ->
  (exists out log, for_ l body = (Ok out, log) /\ Forall C log
                   /\ length log = (length l * n)%nat
                   /\ length out = length l /\ Forall Q out)
  \/ (exists e log, for_ l body = (Raise e, log) /\ Forall C log /\ F e log).
Proof.
  intros HF. induction l as [|a l IH]; intros Hbody.
  - left. exists [], []. repeat split; constructor.
  - cbn [for_].
    destruct (Hbody a) as [(b & log & Hb & Hc & Hn & HQ)|(e & log & Hb & Hc & He)];
      [apply list_elem_of_here| |].
    + rewrite Hb. cbn [mbind UI_bind].
      destruct IH as [(out & log' & -> & Hc' & Hn' & Hlen & HQ')
                     |(e & log' & -> & Hc' & He)].
      { intros a' Ha'. apply Hbody, list_elem_of_further, Ha'. }
      * left. exists (b :: out), (log ++ log' ++ []).
        cbn [mbind UI_bind mret UI_ret]. split; [reflexivity|].
        rewrite app_nil_r. repeat split.
        -- apply Forall_app; auto.
        -- rewrite length_app, Hn, Hn'. cbn [length]. lia.
        -- cbn [length]. lia.
        -- constructor; assumption.
      * right. exists e, (log ++ log'). cbn [mbind UI_bind].
        split; [reflexivity|]. split; [apply Forall_app; auto|].
        apply HF, He.
    + right. exists e, log. rewrite Hb. auto.
Qed.

Lemma np_linspace_length (start stop : R) (num : Z) :
  length (np_linspace start stop num) = Z.to_nat num.
Proof.
  unfold np_linspace.
  repeat match goal with
  | |- context [if ?b then _ else _] => destruct b
  end;
  rewrite ?length_insert, ?length_fmap, ?length_seq; reflexivity.
Qed.

(** The two loops of a sweep over a base: every event is the pricing of a
    model with the strike and the yield of the base, and the loops stop
    at the first model on which the engine raises. *)
Lemma sweep_loops (C : event -> Prop) (base : Spec.ContractInputs)
    (xn zn yk : key) (zs xs : list R) :
  xn <> str "K" -> zn <> str "K" -> xn <> str "q" -> zn <> str "q" ->
  (forall self,
     BlackScholes.K self = Spec.strike base ->
     BlackScholes.q self = Spec.dividend_yield_pct base / 100 ->
     C (model_calculate_all self)) ->
  (exists m log,
     for_ zs (fun z_val =>
       for_ xs (fun x_val => cell (inputs_dict base) xn zn yk z_val x_val))
     = (Ok m, log)
     /\ Forall C log
     /\ length log = (length zs * length xs)%nat
     /\ length m = length zs
     /\ Forall (fun row => length row = length xs) m)
  \/ (exists e log calls self,
     for_ zs (fun z_val =>
       for_ xs (fun x_val => cell (inputs_dict base) xn zn yk z_val x_val))
     = (Raise e, log)
     /\ Forall C log
     /\ log = calls ++ [model_calculate_all self]
     /\ BlackScholes.K self = Spec.strike base
     /\ BlackScholes.calculate_all scipy self = Raise e).
Proof.
  intros HxK HzK Hxq Hzq HC.
  set (F := fun (e : exn) (log : list event) =>
         exists calls self,
           log = calls ++ [model_calculate_all self]
           /\ BlackScholes.K self = Spec.strike base
           /\ BlackScholes.calculate_all scipy self = Raise e).
  assert (HF : forall e log log', F e log' -> F e (log ++ log')).
  { intros e log log' (calls & self & -> & HK & He).
    exists (log ++ calls), self. rewrite <- app_assoc. auto. }
  destruct (for_calls zs
              (fun z_val =>
                 for_ xs (fun x_val => cell (inputs_dict base) xn zn yk z_val x_val))
              (length xs) C (fun row => length row = length xs) F HF)
    as [Hok | (e & log & Hr & Hc & calls & self & Hlog & HK & He)].
  - intros z _.
    destruct (for_calls xs (fun x_val => cell (inputs_dict base) xn zn yk z x_val)
                1 C (fun _ => True) F HF)
      as [(row & log & Hr & Hc & Hl & Hlen & _) | Hraise].
    + intros x _.
      destruct (cell_call base xn zn yk z x) as (model & HKm & Hqm & ->); auto.
      destruct (BlackScholes.calculate_all scipy model) as [r|e] eqn:Hcall.
      * left. do 2 eexists. split; [reflexivity|].
        split; [|auto]. repeat constructor. apply HC; assumption.
      * right. do 2 eexists. split; [reflexivity|].
        split; [repeat constructor; apply HC; assumption|].
        exists [], model. auto.
    + left. exists row, log. repeat split; auto. lia.
    + right. exact Hraise.
  - left. exact Hok.
  - right. exists e, log, calls, self. auto.
Qed.

(** Past the reading of the entries and of the settings. *)
Lemma run_analysis_params (py : builtins) (view : OptionAnalyticsUI.t)
    (base : Spec.ContractInputs) (p : params) :
  shows_base py view base ->
  read_params py view = Ok p ->
  run_analysis py view =
    if decide (var_map !! x_var p = var_map !! z_var p) then
      tell (showwarning "Configuration Error"
              "X-Axis and Z-Axis variables must be different.")
    else
      y_matrix ←
        for_ ((fun i => z_start p + INR i * z_inc p) <$> seq 0 5)
          (fun z_val =>
             for_ (np_linspace (x_start p) (x_end p) (x_steps p))
               (fun x_val =>
                  cell (inputs_dict base) (var_map !! x_var p)
                    (var_map !! z_var p) (metric_map !! y_var p)
                    z_val x_val));
      tell (plot_data (np_linspace (x_start p) (x_end p) (x_steps p))
              ((fun i => z_start p + INR i * z_inc p) <$> seq 0 5)
              y_matrix (x_var p) (y_var p) (z_var p)).
Proof.
  intros Hb Hp. unfold run_analysis, get_analysis_inputs.
  rewrite (shows_base_dict py view base Hb). cbn [mbind UI_bind].
  rewrite (decide_False _ _ (inputs_dict_nonempty base)).
  rewrite Hp. cbn [mbind UI_bind mret UI_ret].
  case_decide.
  - reflexivity.
  - match goal with
    | |- (let '(b, log') := ?m in _) = _ => destruct m as [b0 log0]
    end.
    reflexivity.
Qed.

Section Outcomes.

Context (py : builtins) (view : OptionAnalyticsUI.t).
Hypothesis Hpy : raises_only_ValueError py.

Lemma read_entries_ValueError (items : list (string * string)) (data : dict)
    (e : exn) :
  read_entries py items data = Raise e -> exists msg, e = ValueError msg.
Proof.
  revert data. induction items as [|[key val] items IH]; intros data.
  - discriminate.
  - cbn [read_entries]. case_decide; [intros [= <-]; eauto|].
    destruct (float py val) as [x|e'] eqn:E.
    + apply IH.
    + cbn [mbind result_bind]. intros [= <-]. apply (proj1 Hpy _ _ E).
Qed.

Lemma first_raise_ValueError (e : exn) :
  first_raise (setting_outcomes py view) = Some e -> exists msg, e = ValueError msg.
Proof.
  unfold first_raise, setting_outcomes.
  destruct Hpy as [Hf Hi].
  destruct (float py (entry_x_start view)) as [a|e1] eqn:E1;
    [|cbn; intros [= <-]; eauto].
  destruct (float py (entry_x_end view)) as [b|e2] eqn:E2;
    [|cbn; intros [= <-]; eauto].
  destruct (int py (entry_x_steps view)) as [n|e3] eqn:E3;
    [|cbn; intros [= <-]; eauto].
  destruct (float py (entry_z_start view)) as [c|e4] eqn:E4;
    [|cbn; intros [= <-]; eauto].
  destruct (float py (entry_z_inc view)) as [d|e5] eqn:E5;
    [|cbn; intros [= <-]; eauto].
  cbn. discriminate.
Qed.

(** The analysis up to the loops: a dialog, or settings that were read. *)
Lemma run_analysis_reads :
  (exists d, is_dialog d /\ run_analysis py view = (Ok tt, [d]))
  \/ (exists (base : Spec.ContractInputs) (p : params),
        shows_base py view base
        /\ (1 < x_steps p)%Z
        /\ var_map !! x_var p <> var_map !! z_var p
        /\ run_analysis py view =
             (y_matrix ←
                for_ ((fun i => z_start p + INR i * z_inc p) <$> seq 0 5)
                  (fun z_val =>
                     for_ (np_linspace (x_start p) (x_end p) (x_steps p))
                       (fun x_val =>
                          cell (inputs_dict base) (var_map !! x_var p)
                            (var_map !! z_var p) (metric_map !! y_var p)
                            z_val x_val));
              tell (plot_data (np_linspace (x_start p) (x_end p) (x_steps p))
                      ((fun i => z_start p + INR i * z_inc p) <$> seq 0 5)
                      y_matrix (x_var p) (y_var p) (z_var p)))).
Proof.
  destruct (get_dashboard_inputs_cases py view)
    as [(base & Hb & Hg) | [[m Hg] | [e Hg]]].
  - destruct (first_raise (setting_outcomes py view)) as [e|] eqn:Hfirst.
    + left. destruct (first_raise_ValueError e Hfirst) as [msg ->].
      eexists. split; [|unfold run_analysis, get_analysis_inputs; rewrite Hg;
        cbn [mbind UI_bind];
        rewrite (decide_False _ _ (inputs_dict_nonempty base));
        rewrite (read_params_first_raise _ _ _ Hfirst); reflexivity].
      do 2 eexists. left. reflexivity.
    + destruct (read_params_all_parse py view Hfirst)
        as (a & b & n & c & d & _ & _ & _ & _ & _ & Hp).
      destruct (n <=? 1)%Z eqn:Hn.
      * left. eexists. split; [|unfold run_analysis, get_analysis_inputs;
          rewrite Hg; cbn [mbind UI_bind];
          rewrite (decide_False _ _ (inputs_dict_nonempty base));
          rewrite Hp; reflexivity].
        do 2 eexists. left. reflexivity.
      * apply Z.leb_gt in Hn.
        set (p := {| y_var := combo_y view; x_var := combo_x view;
                     x_start := a; x_end := b; x_steps := n;
                     z_var := combo_z view; z_start := c; z_inc := d |}) in *.
        pose proof (run_analysis_params py view base p Hb Hp) as Hrun.
        destruct (decide (var_map !! x_var p = var_map !! z_var p)) as [Heq|Heq].
        -- left. eexists. split; [|exact Hrun]. do 2 eexists. right. reflexivity.
        -- right. exists base, p. auto.
  - left. eexists. split; [|unfold run_analysis, get_analysis_inputs;
      rewrite Hg; reflexivity].
    do 2 eexists. left. reflexivity.
  - exfalso. unfold get_dashboard_inputs in Hg.
    destruct (read_entries py (entries view) ∅) as [data|e'] eqn:E;
      [discriminate|].
    destruct (read_entries_ValueError _ _ _ E) as [msg ->]. discriminate.
Qed.


End Outcomes.

Lemma demo_py_raises_only_ValueError : raises_only_ValueError demo_py.
Proof.
  split; intros text e; cbn [float int demo_py]; unfold demo_float, demo_int;
    repeat case_match; intros [= <-]; eauto.
Qed.


(** X10.  A sweep never changes the strike or the dividend yield: every
    model an analysis prices has the strike of the K entry and, as a
    fraction, the yield of the q entry, whatever the settings and the
    selections are. *)
Theorem sweep_keeps_strike_and_yield (py : builtins) (view : OptionAnalyticsUI.t)
    (base : Spec.ContractInputs) (self : BlackScholes.t) :
  shows_base py view base ->
  model_calculate_all self ∈ snd (run_analysis py view) ->
  BlackScholes.K self = Spec.strike base
  /\ BlackScholes.q self = Spec.dividend_yield_pct base / 100.
Proof.
  intros Hb Hin.
  destruct (read_params py view) as [p|e] eqn:Hp.
  - rewrite (run_analysis_params py view base p Hb Hp) in Hin.
    destruct (decide (var_map !! x_var p = var_map !! z_var p)) as [Heq|Heq].
    { cbn in Hin. apply list_elem_of_singleton in Hin. discriminate. }
    set (C := fun e : event =>
           forall self', e = model_calculate_all self' ->
             BlackScholes.K self' = Spec.strike base
             /\ BlackScholes.q self' = Spec.dividend_yield_pct base / 100).
    destruct (sweep_loops C base (var_map !! x_var p) (var_map !! z_var p)
                (metric_map !! y_var p)
                ((fun i => z_start p + INR i * z_inc p) <$> seq 0 5)
                (np_linspace (x_start p) (x_end p) (x_steps p)))
      as [(m & log & Hm & Hc & _) | (e & log & calls & self' & Hm & Hc & _)];
      try apply var_map_not_K; try apply var_map_not_q.
    + intros self' HK Hq self'' [= <-]. auto.
    + rewrite Hm in Hin. cbn [mbind UI_bind tell snd] in Hin.
      apply elem_of_app in Hin as [Hin|Hin].
      * rewrite Forall_forall in Hc. apply (Hc _ Hin). reflexivity.
      * apply list_elem_of_singleton in Hin. discriminate.
    + rewrite Hm in Hin. cbn [mbind UI_bind snd] in Hin.
      rewrite Forall_forall in Hc. apply (Hc _ Hin). reflexivity.
  - exfalso. revert Hin. unfold run_analysis, get_analysis_inputs.
    rewrite (shows_base_dict py view base Hb). cbn [mbind UI_bind].
    rewrite (decide_False _ _ (inputs_dict_nonempty base)), Hp.
    destruct e; cbn; intros Hin;
      repeat (apply elem_of_cons in Hin as [Hin|Hin]; [discriminate|]);
      apply elem_of_nil in Hin; exact Hin.
Qed.

Lemma sweep_keeps_strike_and_yield_witness :
  BlackScholes.K (model_of (Spec.cell_inputs one_year_atm
                    (demo_spec Spec.spot_price Spec.volatility 3) 10 50))
  = Spec.strike one_year_atm
  /\ BlackScholes.q (model_of (Spec.cell_inputs one_year_atm
                       (demo_spec Spec.spot_price Spec.volatility 3) 10 50))
     = Spec.dividend_yield_pct one_year_atm / 100.
Proof.
  apply (sweep_keeps_strike_and_yield demo_py
           (demo_view "100" "Spot Price" "Volatility" "3") one_year_atm).
  - unfold shows_base. repeat split; try discriminate; reflexivity.
  - rewrite (run_analysis_valid demo_py
               (demo_view "100" "Spot Price" "Volatility" "3") one_year_atm
               (demo_spec Spec.spot_price Spec.volatility 3)).
    + cbn [snd]. apply elem_of_app. left. unfold sweep_calls.
      rewrite demo_independent_values, demo_series_values.
      apply list_elem_of_here.
    + demo_shows.
    + cbn. lia.
    + discriminate.
    + exact demo_grid_returns.
Defined.

(** ** The dashboard: the results grid *)

Lemma lookup_list_to_map_keys (f : string -> string) (keys : list string)
    (k : string) :
  (list_to_map ((fun k => (k, f k)) <$> keys) : gmap string string) !! k
  = if decide (k ∈ keys) then Some (f k) else None.
Proof.
  induction keys as [|a keys IH].
  - cbn. rewrite decide_False by apply not_elem_of_nil. apply lookup_empty.
  - cbn [fmap list_fmap list_to_map foldr].
    destruct (decide (k = a)) as [->|Hne].
    + rewrite lookup_insert_eq, decide_True by apply list_elem_of_here.
      reflexivity.
    + rewrite lookup_insert_ne by (intros Heq; apply Hne; symmetry; exact Heq).
      rewrite IH.
      destruct (decide (k ∈ keys)) as [Hin|Hnin].
      * rewrite decide_True by (apply list_elem_of_further, Hin). reflexivity.
      * rewrite decide_False; [reflexivity|].
        intros Hin. apply elem_of_cons in Hin as [Hin|Hin]; contradiction.
Qed.

(** A map is given by its domain and its values there. *)
Lemma gmap_of_dom (st : gmap string string) (keys : list string) :
  dom st = list_to_set keys ->
  st = list_to_map ((fun k => (k, default "" (st !! k))) <$> keys).
Proof.
  intros Hdom. apply map_eq. intros k.
  assert (Hk : is_Some (st !! k) <-> k ∈ keys).
  { rewrite <- elem_of_dom, Hdom, elem_of_list_to_set. reflexivity. }
  rewrite (lookup_list_to_map_keys (fun k => default "" (st !! k))).
  destruct (decide (k ∈ keys)) as [Hin|Hnin].
  - destruct (proj2 Hk Hin) as [t ->]. reflexivity.
  - destruct (st !! k) eqn:E; [|reflexivity].
    exfalso. apply Hnin, Hk. eauto.
Qed.

Lemma labels_explicit (st : Dashboard.labels) :
  dom st = dom Dashboard.setup_dashboard ->
  exists t1 t2 t3 t4 t5 t6 t7 t8 t9 t10 t11 t12 : string,
    st = list_to_map
           [ ("call_price", t1); ("put_price", t2);
             ("call_delta", t3); ("put_delta", t4);
             ("call_gamma", t5); ("put_gamma", t6);
             ("call_vega", t7); ("put_vega", t8);
             ("call_theta", t9); ("put_theta", t10);
             ("call_rho", t11); ("put_rho", t12) ].
Proof.
  intros H. do 12 eexists.
  exact (gmap_of_dom st
           [ "call_price"; "put_price"; "call_delta"; "put_delta";
             "call_gamma"; "put_gamma"; "call_vega"; "put_vega";
             "call_theta"; "put_theta"; "call_rho"; "put_rho" ] H).
Qed.

Lemma update_dashboard_results_shown (format_4f : R -> string)
    (p : Spec.PricingResult) (st : Dashboard.labels) :
  dom st = dom Dashboard.setup_dashboard ->
  Dashboard.update_dashboard_results format_4f (Spec.as_dict p) st
  = (Ok tt, shown format_4f p).
Proof.
  intros H.
  destruct (labels_explicit st H)
    as (t1 & t2 & t3 & t4 & t5 & t6 & t7 & t8 & t9 & t10 & t11 & t12 & ->).
  reflexivity.
Qed.

(** X11.  Whatever the engine returns, with any library, and whatever the
    twelve labels of the grid showed before, [update_dashboard_results]
    raises nothing and rewrites every one of them: ten values of the
    result each in its own label, the gamma and the vega in the labels of
    both columns.  No label keeps its previous text. *)
Theorem update_rewrites_every_label (format_4f : R -> string) (lib : numlib)
    (self : BlackScholes.t) (res : dict) (st : Dashboard.labels) :
  BlackScholes.calculate_all lib self = Ok res ->
  dom st = dom Dashboard.setup_dashboard ->
  exists p : Spec.PricingResult,
    res = Spec.as_dict p
    /\ Dashboard.update_dashboard_results format_4f res st
       = (Ok tt, shown format_4f p).
Proof.
  intros Hres Hst.
  destruct (calculate_all_shape_lib lib self res Hres) as [p ->].
  exists p. split; [reflexivity|].
  apply update_dashboard_results_shown, Hst.
Qed.

Lemma update_rewrites_every_label_witness :
  exists p : Spec.PricingResult,
    Spec.as_dict (Spec.intrinsic 110 100 0 0) = Spec.as_dict p
    /\ Dashboard.update_dashboard_results demo_format
         (Spec.as_dict (Spec.intrinsic 110 100 0 0)) Dashboard.setup_dashboard
       = (Ok tt, shown demo_format p).
Proof.
  assert (Hres : BlackScholes.calculate_all scipy (model_of zero_volatility)
                 = Ok (Spec.as_dict (Spec.intrinsic 110 100 0 0))).
  { apply calculate_all_zero_vol; simpl; lra. }
  exact (update_rewrites_every_label demo_format scipy (model_of zero_volatility)
           _ Dashboard.setup_dashboard Hres eq_refl).
Defined.



(** ** The chart of an analysis *)

(** The chart an analysis draws, if any, has five series values and five
    rows. *)
Lemma run_analysis_chart (py : builtins) (view : OptionAnalyticsUI.t)
    (x_values z_values : list R) (y_matrix : list (list R))
    (x_label y_label z_label : string) :
  plot_data x_values z_values y_matrix x_label y_label z_label
    ∈ snd (run_analysis py view) ->
  length z_values = 5%nat /\ length y_matrix = 5%nat.
Proof.
  intros Hin.
  assert (Hnot : forall l : list event,
            (forall e, e ∈ l -> is_dialog e) ->
            plot_data x_values z_values y_matrix x_label y_label z_label ∉ l).
  { intros l Hl H. destruct (Hl _ H) as (t & m & [H'|H']); discriminate. }
  destruct (get_dashboard_inputs_cases py view)
    as [(base & Hb & Hg) | [[m Hg] | [e Hg]]].
  - destruct (read_params py view) as [p|e] eqn:Hp.
    + rewrite (run_analysis_params py view base p Hb Hp) in Hin.
      destruct (decide (var_map !! x_var p = var_map !! z_var p)) as [Heq|Heq].
      { cbn in Hin. apply list_elem_of_singleton in Hin. discriminate. }
      destruct (sweep_loops is_call base (var_map !! x_var p) (var_map !! z_var p)
                  (metric_map !! y_var p)
                  ((fun i => z_start p + INR i * z_inc p) <$> seq 0 5)
                  (np_linspace (x_start p) (x_end p) (x_steps p)))
        as [(m & log & Hm & Hc & _ & Hlen & _)
           | (e & log & calls & self & Hm & Hc & _)];
        try apply var_map_not_K; try apply var_map_not_q.
      * intros self0 _ _. exists self0. reflexivity.
      * rewrite Hm in Hin. cbn [mbind UI_bind tell snd] in Hin.
        apply elem_of_app in Hin as [Hin|Hin].
        -- rewrite Forall_forall in Hc. destruct (Hc _ Hin) as [self Hself].
           discriminate.
        -- apply list_elem_of_singleton in Hin. injection Hin as -> -> -> _ _ _.
           split; [reflexivity | exact Hlen].
      * rewrite Hm in Hin. cbn [mbind UI_bind snd] in Hin.
        rewrite Forall_forall in Hc. destruct (Hc _ Hin) as [self0 Hself].
        discriminate.
    + exfalso. revert Hin. unfold run_analysis, get_analysis_inputs.
      rewrite Hg. cbn [mbind UI_bind].
      rewrite (decide_False _ _ (inputs_dict_nonempty base)), Hp.
      destruct e; cbn; intros Hin;
        repeat (apply elem_of_cons in Hin as [Hin|Hin]; [discriminate|]);
        apply elem_of_nil in Hin; exact Hin.
  - exfalso. revert Hin. unfold run_analysis, get_analysis_inputs.
    rewrite Hg. cbn. intros Hin.
    apply list_elem_of_singleton in Hin. discriminate.
  - exfalso. revert Hin. unfold run_analysis, get_analysis_inputs.
    rewrite Hg. cbn. apply not_elem_of_nil.
Qed.

(** X13.  [plot_data] renders every chart an analysis hands to it without
    an index out of range: after clearing the axes it plots five curves,
    the [i]-th one the [i]-th row of the matrix against the x values,
    labelled with the [i]-th series value and drawn in the [i]-th of the
    five colours, then sets the axis labels, the title, the legend and the
    grid and redraws the canvas. *)
Theorem analysis_chart_renders (format_2f : R -> string) (py : builtins)
    (view : OptionAnalyticsUI.t) (x_values z_values : list R)
    (y_matrix : list (list R)) (x_label y_label z_label : string) :
  plot_data x_values z_values y_matrix x_label y_label z_label
    ∈ snd (run_analysis py view) ->
  exists (z0 z1 z2 z3 z4 : R) (r0 r1 r2 r3 r4 : list R),
    z_values = [z0; z1; z2; z3; z4]
    /\ y_matrix = [r0; r1; r2; r3; r4]
    /\ Chart.plot_data format_2f x_values z_values y_matrix
         x_label y_label z_label
       = ([ Chart.ax_clear;
            Chart.ax_plot x_values r0 (z_label +:+ "=" +:+ format_2f z0) "#1f77b4";
            Chart.ax_plot x_values r1 (z_label +:+ "=" +:+ format_2f z1) "#ff7f0e";
            Chart.ax_plot x_values r2 (z_label +:+ "=" +:+ format_2f z2) "#2ca02c";
            Chart.ax_plot x_values r3 (z_label +:+ "=" +:+ format_2f z3) "#d62728";
            Chart.ax_plot x_values r4 (z_label +:+ "=" +:+ format_2f z4) "#9467bd";
            Chart.ax_set_xlabel x_label;
            Chart.ax_set_ylabel y_label;
            Chart.ax_set_title (y_label +:+ " vs. " +:+ x_label);
            Chart.ax_legend; Chart.ax_grid; Chart.canvas_draw ],
          Chart.Returned).
Proof.
  intros Hin. destruct (run_analysis_chart _ _ _ _ _ _ _ _ Hin) as [Hz Hm].
  destruct z_values as [|z0 [|z1 [|z2 [|z3 [|z4 [|? ?]]]]]]; try discriminate.
  destruct y_matrix as [|r0 [|r1 [|r2 [|r3 [|r4 [|? ?]]]]]]; try discriminate.
  exists z0, z1, z2, z3, z4, r0, r1, r2, r3, r4.
  split; [reflexivity|]. split; reflexivity.
Qed.

Lemma analysis_chart_renders_witness :
  exists (z0 z1 z2 z3 z4 : R) (r0 r1 r2 r3 r4 : list R),
    Spec.series_values (demo_spec Spec.spot_price Spec.volatility 3)
    = [z0; z1; z2; z3; z4]
    /\ direct_matrix one_year_atm (demo_spec Spec.spot_price Spec.volatility 3)
       = [r0; r1; r2; r3; r4]
    /\ Chart.plot_data demo_format
         (Spec.independent_values (demo_spec Spec.spot_price Spec.volatility 3))
         (Spec.series_values (demo_spec Spec.spot_price Spec.volatility 3))
         (direct_matrix one_year_atm (demo_spec Spec.spot_price Spec.volatility 3))
         "Spot Price" "Call Price" "Volatility"
       = ([ Chart.ax_clear;
            Chart.ax_plot
              (Spec.independent_values (demo_spec Spec.spot_price Spec.volatility 3))
              r0 ("Volatility" +:+ "=" +:+ demo_format z0) "#1f77b4";
            Chart.ax_plot
              (Spec.independent_values (demo_spec Spec.spot_price Spec.volatility 3))
              r1 ("Volatility" +:+ "=" +:+ demo_format z1) "#ff7f0e";
            Chart.ax_plot
              (Spec.independent_values (demo_spec Spec.spot_price Spec.volatility 3))
              r2 ("Volatility" +:+ "=" +:+ demo_format z2) "#2ca02c";
            Chart.ax_plot
              (Spec.independent_values (demo_spec Spec.spot_price Spec.volatility 3))
              r3 ("Volatility" +:+ "=" +:+ demo_format z3) "#d62728";
            Chart.ax_plot
              (Spec.independent_values (demo_spec Spec.spot_price Spec.volatility 3))
              r4 ("Volatility" +:+ "=" +:+ demo_format z4) "#9467bd";
            Chart.ax_set_xlabel "Spot Price";
            Chart.ax_set_ylabel "Call Price";
            Chart.ax_set_title ("Call Price" +:+ " vs. " +:+ "Spot Price");
            Chart.ax_legend; Chart.ax_grid; Chart.canvas_draw ],
          Chart.Returned).
Proof.
  apply (analysis_chart_renders demo_format demo_py
           (demo_view "100" "Spot Price" "Volatility" "3")).
  rewrite (run_analysis_valid demo_py
             (demo_view "100" "Spot Price" "Volatility" "3") one_year_atm
             (demo_spec Spec.spot_price Spec.volatility 3)).
  - cbn [snd]. apply elem_of_app. right. apply list_elem_of_here.
  - demo_shows.
  - cbn. lia.
  - discriminate.
  - exact demo_grid_returns.
Defined.

(** ** The boxes and the two maps of the controller *)

(** X14.  Every selection the three boxes offer is known to the
    controller.  A metric of the y box is mapped to a key that every
    result of the engine holds, so the extraction never falls back on its
    [0.0] default; a variable of the x or the z box is mapped to one of
    the keys S, sigma, T and r of the dictionary of the entries. *)
Theorem selections_are_recognised (lib : numlib) (self : BlackScholes.t)
    (res : dict) (base : Spec.ContractInputs) (y x : string) :
  BlackScholes.calculate_all lib self = Ok res ->
  y ∈ combo_y_values ->
  x ∈ combo_x_values ++ combo_z_values ->
  (exists k v, metric_map !! y = Some k /\ res !! str k = Some v
               /\ get res (metric_map !! y) 0 = v)
  /\ (exists field v, var_map !! x = Some field
                      /\ field ∈ ["S"; "sigma"; "T"; "r"]
                      /\ inputs_dict base !! str field = Some v).
Proof.
  intros Hres Hy Hx.
  destruct (calculate_all_shape_lib lib self res Hres) as [p ->].
  split.
  - unfold combo_y_values in Hy.
    repeat (apply elem_of_cons in Hy as [->|Hy];
            [do 2 eexists; repeat split; reflexivity|]).
    apply elem_of_nil in Hy. contradiction.
  - unfold combo_x_values, combo_z_values in Hx. cbn [app] in Hx.
    repeat (apply elem_of_cons in Hx as [->|Hx];
            [do 2 eexists; split; [reflexivity|];
             split; [|reflexivity];
             repeat first [apply list_elem_of_here | apply list_elem_of_further]|]).
    apply elem_of_nil in Hx. contradiction.
Qed.

Lemma selections_are_recognised_witness :
  (exists k v, metric_map !! "Theta" = Some k
               /\ Spec.as_dict (Spec.intrinsic 110 100 0 0) !! str k = Some v
               /\ get (Spec.as_dict (Spec.intrinsic 110 100 0 0))
                    (metric_map !! "Theta") 0 = v)
  /\ (exists field v, var_map !! "Risk-Free Rate" = Some field
                      /\ field ∈ ["S"; "sigma"; "T"; "r"]
                      /\ inputs_dict one_year_atm !! str field = Some v).
Proof.
  assert (Hres : BlackScholes.calculate_all scipy (model_of zero_volatility)
                 = Ok (Spec.as_dict (Spec.intrinsic 110 100 0 0))).
  { apply calculate_all_zero_vol; simpl; lra. }
  apply (selections_are_recognised scipy (model_of zero_volatility) _
           one_year_atm "Theta" "Risk-Free Rate" Hres).
  - unfold combo_y_values. do 6 apply list_elem_of_further. apply list_elem_of_here.
  - cbn. do 5 apply list_elem_of_further. apply list_elem_of_here.
Defined.
